(** * Metal3 deployment: rendering and reconciliation

    A shallow embedding of [provisioning/baremetal_pod.go] of the
    cluster-baremetal-operator: the rendering of the metal3 pod (init
    containers, containers, proxy and trusted-CA injection) and the
    reconciliation of the metal3 deployment against the API server.

    Go slices are lists (a nil slice and an empty slice are both [[]]), Go maps
    are [gmap]s, pointers that may be nil are [option]s, and the calls to the
    API server thread an explicit state. *)

From stdpp Require Import base strings gmap list.
From Stdlib Require Import ZArith.

Local Open Scope string_scope.
Local Open Scope Z_scope.
Local Open Scope list_scope.

(** ** Kubernetes core/v1 types, as far as the package fills them in *)

Inductive EnvVarSource :=
  | FieldRef (FieldPath : string)
  | SecretKeyRef (LocalObjectReference_Name : string) (Key : string).

Record EnvVar := mkEnvVar {
  EnvVar_Name : string;
  EnvVar_Value : string;
  EnvVar_ValueFrom : option EnvVarSource
}.

(** [corev1.EnvVar{Name: n, Value: v}] and [corev1.EnvVar{Name: n, ValueFrom: s}]. *)
Definition envValue (n v : string) : EnvVar := mkEnvVar n v None.
Definition envFrom (n : string) (s : EnvVarSource) : EnvVar := mkEnvVar n "" (Some s).

Record VolumeMount := mkVolumeMount {
  VolumeMount_Name : string;
  VolumeMount_MountPath : string;
  VolumeMount_ReadOnly : bool
}.

Record ContainerPort := mkContainerPort {
  ContainerPort_Name : string;
  ContainerPort_ContainerPort : Z;
  ContainerPort_HostPort : Z
}.

(** A [resource.Quantity] is kept in the textual form handed to
    [resource.MustParse]. *)
Definition Quantity := string.
Definition resource_MustParse (s : string) : Quantity := s.

Definition ResourceCPU : string := "cpu".
Definition ResourceMemory : string := "memory".

Record ResourceRequirements := mkResourceRequirements {
  Requests : gmap string Quantity
}.

Record SecurityContext := mkSecurityContext {
  Privileged : option bool
}.

Record Container := mkContainer {
  Container_Name : string;
  Container_Image : string;
  Container_Command : list string;
  Container_Args : list string;
  Container_Ports : list ContainerPort;
  Container_Env : list EnvVar;
  Container_Resources : ResourceRequirements;
  Container_VolumeMounts : list VolumeMount;
  Container_ImagePullPolicy : string;
  Container_SecurityContext : option SecurityContext
}.

Record KeyToPath := mkKeyToPath { KeyToPath_Key : string; KeyToPath_Path : string }.

Inductive VolumeSource :=
  | EmptyDir
  | Secret (SecretName : string) (Items : list KeyToPath)
  | ConfigMap (Name : string) (Items : list KeyToPath) (Optional : option bool)
  | OtherVolumeSource (description : string).

Record Volume := mkVolume {
  Volume_Name : string;
  Volume_VolumeSource : VolumeSource
}.

Record Toleration := mkToleration {
  Toleration_Key : string;
  Toleration_Operator : string;
  Toleration_Effect : string;
  Toleration_TolerationSeconds : option Z
}.

Record PodSecurityContext := mkPodSecurityContext {
  RunAsNonRoot : option bool
}.

Record PodSpec := mkPodSpec {
  Volumes : list Volume;
  InitContainers : list Container;
  Containers : list Container;
  HostNetwork : bool;
  DNSPolicy : string;
  PriorityClassName : string;
  NodeSelector : gmap string string;
  PodSpec_SecurityContext : option PodSecurityContext;
  ServiceAccountName : string;
  Tolerations : list Toleration
}.

Record PodTemplateSpec := mkPodTemplateSpec {
  Template_Annotations : gmap string string;
  Template_Labels : gmap string string;
  Template_Spec : PodSpec
}.

(** ** meta/v1 and apps/v1 *)

Record LabelSelectorRequirement := mkLabelSelectorRequirement {
  Requirement_Key : string;
  Requirement_Operator : string;
  Requirement_Values : list string
}.

Record LabelSelector := mkLabelSelector {
  MatchLabels : gmap string string;
  MatchExpressions : list LabelSelectorRequirement
}.

#[global] Instance LabelSelectorRequirement_eq_dec : EqDecision LabelSelectorRequirement.
Proof. solve_decision. Defined.

#[global] Instance LabelSelector_eq_dec : EqDecision LabelSelector.
Proof. solve_decision. Defined.

Record OwnerReference := mkOwnerReference {
  OwnerReference_Kind : string;
  OwnerReference_Name : string;
  OwnerReference_Controller : option bool
}.

Record ObjectMeta := mkObjectMeta {
  Meta_Name : string;
  Meta_Namespace : string;
  Meta_Generation : Z;
  Meta_Annotations : gmap string string;
  Meta_Labels : gmap string string;
  Meta_OwnerReferences : list OwnerReference
}.

(** [appsv1.DeploymentConditionType] and [corev1.ConditionStatus] are string
    types. *)
Definition DeploymentConditionType := string.
Definition DeploymentAvailable : DeploymentConditionType := "Available".
Definition DeploymentProgressing : DeploymentConditionType := "Progressing".
Definition DeploymentReplicaFailure : DeploymentConditionType := "ReplicaFailure".

Definition ConditionStatus := string.
Definition ConditionTrue : ConditionStatus := "True".
Definition ConditionFalse : ConditionStatus := "False".
Definition ConditionUnknown : ConditionStatus := "Unknown".

Record DeploymentCondition := mkDeploymentCondition {
  Condition_Type : DeploymentConditionType;
  Condition_Status : ConditionStatus
}.

Record DeploymentStatus := mkDeploymentStatus {
  ObservedGeneration : Z;
  Conditions : list DeploymentCondition
}.

Record DeploymentSpec := mkDeploymentSpec {
  Replicas : option Z;
  Selector : option LabelSelector;
  Template : PodTemplateSpec;
  Strategy_Type : string
}.

Record Deployment := mkDeployment {
  Deployment_ObjectMeta : ObjectMeta;
  Deployment_Spec : DeploymentSpec;
  Deployment_Status : DeploymentStatus
}.

(** ** The provisioning configuration and the facts of one reconcile *)

(** Modelled from the spec: the API type [metal3iov1alpha1.ProvisioningNetwork]
    is declared outside the files at hand; the spec gives the provisioning
    network mode as "`Disabled | Managed | Unmanaged`". The code compares it
    with [ProvisioningNetworkDisabled] by [==] and [!=], as a string type. *)
Definition ProvisioningNetwork := string.
Definition ProvisioningNetworkManaged : ProvisioningNetwork := "Managed".
Definition ProvisioningNetworkUnmanaged : ProvisioningNetwork := "Unmanaged".
Definition ProvisioningNetworkDisabled : ProvisioningNetwork := "Disabled".

Record PreProvisioningOSDownloadURLs := mkPreProvisioningOSDownloadURLs {
  IsoURL : string
}.

(** The fields of [metal3iov1alpha1.ProvisioningSpec] that baremetal_pod.go
    reads itself; every other field reaches it only through the helpers of
    [PackageDecls] below. *)
Record ProvisioningSpec := mkProvisioningSpec {
  ProvisioningIP : string;
  Spec_ProvisioningNetwork : ProvisioningNetwork;
  Spec_PreProvisioningOSDownloadURLs : PreProvisioningOSDownloadURLs;
  ProvisioningOSDownloadURL : string;
  VirtualMediaViaExternalNetwork : bool;
  WatchAllNamespaces : bool
}.

Record Images := mkImages {
  BaremetalOperator : string;
  Ironic : string;
  MachineOsDownloader : string;
  StaticIpManager : string;
  IpaDownloader : string
}.

(** Modelled from the spec: the type of [info.NetworkStack] is declared in a
    sibling file; the spec has a "detected dual/v4/v6 network stack", and the
    code switches over these three constants. *)
Inductive NetworkStackType := NetworkStackV4 | NetworkStackV6 | NetworkStackDual.

(** [configv1.Proxy], of which only [Status] is read. *)
Record Proxy := mkProxy {
  HTTPProxy : string;
  HTTPSProxy : string;
  NoProxy : string
}.

(** [ProvisioningInfo] without its handles on the API server ([Client],
    [EventRecorder], [Scheme]) and without [ProvConfig.Status.Generations],
    which [EnsureMetal3Deployment] updates: these are in the reconciler state
    below. *)
Record GenerationStatus := mkGenerationStatus {
  Generation_Group : string;
  Generation_Resource : string;
  Generation_Namespace : string;
  Generation_Name : string;
  LastGeneration : Z
}.

Record ProvisioningInfo := mkProvisioningInfo {
  ProvConfig_Spec : ProvisioningSpec;
  Namespace : string;
  Info_Images : Images;
  Info_Proxy : option Proxy;
  NetworkStack : NetworkStackType;
  MasterMacAddresses : list string;
  SSHKey : string
}.

(** ** What the file takes from the rest of package provisioning

    baremetal_pod.go refers to constants, two volume declarations and three
    helpers that are declared in sibling files of the package
    (configuration, secrets, image cache). Nothing here depends on what they
    are, so they are taken as they come. *)
Class PackageDecls := {
  (* names of environment variables *)
  provisioningIP : string;
  provisioningInterface : string;
  deployKernelUrl : string;
  deployRamdiskUrl : string;
  ironicEndpoint : string;
  ironicInspectorEndpoint : string;
  httpPort : string;
  dhcpRange : string;
  machineImageUrl : string;
  ipOptions : string;
  (* the httpd port *)
  baremetalHttpPort : string;
  httpPortName : string;
  (* secrets *)
  baremetalSecretName : string;
  baremetalSecretKey : string;
  pullSecretName : string;
  openshiftConfigSecretKey : string;
  ironicSecretName : string;
  ironicrpcSecretName : string;
  inspectorSecretName : string;
  tlsSecretName : string;
  ironicHtpasswdKey : string;
  ironicUsernameKey : string;
  ironicPasswordKey : string;
  ironicConfigKey : string;
  stateService : string;
  (* the image cache *)
  imageVolume : Volume;
  imageVolumeMount : VolumeMount;
  (* helpers over the configuration *)
  getMetal3DeploymentConfig : string -> ProvisioningSpec -> option string;
  getPreProvisioningOSDownloadURLs : ProvisioningSpec -> list string;
  isCoreOSIPAAvailable : ProvisioningSpec -> bool
}.

(** ** Go library functions *)

(** [strings.Join(elems, sep)]. *)
Fixpoint strings_Join (elems : list string) (sep : string) : string :=
  match elems with
  | [] => ""
  | x :: rest =>
      match rest with
      | [] => x
      | _ :: _ => x +:+ sep +:+ strings_Join rest sep
      end
  end.

Definition digitValue (c : Ascii.ascii) : option Z :=
  let n := Z.of_nat (Ascii.nat_of_ascii c) in
  if (48 <=? n) && (n <=? 57) then Some (n - 48) else None.

Fixpoint atoiDigits (s : string) (acc : Z) : option Z :=
  match s with
  | EmptyString => Some acc
  | String c rest =>
      match digitValue c with
      | Some d => atoiDigits rest (10 * acc + d)
      | None => None
      end
  end.

(** [strconv.Atoi], for a platform whose [int] has 64 bits: the value, or
    [None] where Go returns an error (bad syntax or out of range). *)
Definition strconv_Atoi (s : string) : option Z :=
  let parse digits :=
    match digits with
    | EmptyString => None
    | _ => atoiDigits digits 0
    end in
  let signed :=
    match s with
    | String (Ascii.Ascii true true false true false true false false) rest => parse rest
    | String (Ascii.Ascii true false true true false true false false) rest => Z.opp <$> parse rest
    | _ => parse s
    end in
  match signed with
  | Some n => if (- 2 ^ 63 <=? n) && (n <? 2 ^ 63) then Some n else None
  | None => None
  end.

(** The conversion [int32(n)]: the low 32 bits, read as a signed number. *)
Definition int32 (n : Z) : Z := (n + 2 ^ 31) mod 2 ^ 32 - 2 ^ 31.


(** ** baremetal_pod.go: constants and package variables *)

Definition metal3AppName := "metal3".
Definition baremetalDeploymentName := "metal3".
Definition baremetalSharedVolume := "metal3-shared".
Definition metal3AuthRootDir := "/auth".
Definition metal3TlsRootDir := "/certs".
Definition ironicCredentialsVolume := "metal3-ironic-basic-auth".
Definition ironicrpcCredentialsVolume := "metal3-ironic-rpc-basic-auth".
Definition inspectorCredentialsVolume := "metal3-inspector-basic-auth".
Definition ironicTlsVolume := "metal3-ironic-tls".
Definition inspectorTlsVolume := "metal3-inspector-tls".
Definition htpasswdEnvVar := "HTTP_BASIC_HTPASSWD".
Definition mariadbPwdEnvVar := "MARIADB_PASSWORD".
Definition ironicInsecureEnvVar := "IRONIC_INSECURE".
Definition inspectorInsecureEnvVar := "IRONIC_INSPECTOR_INSECURE".
Definition ironicCertEnvVar := "IRONIC_CACERT_FILE".
Definition sshKeyEnvVar := "IRONIC_RAMDISK_SSH_KEY".
Definition externalIpEnvVar := "IRONIC_EXTERNAL_IP".
Definition cboOwnedAnnotation := "baremetal.openshift.io/owned".
Definition cboLabelName := "baremetal.openshift.io/cluster-baremetal-operator".
Definition externalTrustBundleConfigMapName := "cbo-trusted-ca".
Definition pullSecretEnvVar := "IRONIC_AGENT_PULL_SECRET".

(** [corev1.TLSCertKey]. *)
Definition TLSCertKey := "tls.crt".

(** The double-quote character, for the one literal that holds it. *)
Definition dquote : string := String (Ascii.ascii_of_nat 34) "".

Definition podTemplateAnnotations : gmap string string :=
  {[ "target.workload.openshift.io/management" :=
       "{" +:+ dquote +:+ "effect" +:+ dquote +:+ ": "
           +:+ dquote +:+ "PreferredDuringScheduling" +:+ dquote +:+ "}" ]}.

(** [deploymentRolloutTimeout = 5 * time.Minute]; a [time.Duration] counts
    nanoseconds. *)
Definition time_Second : Z := 1000000000.
Definition time_Minute : Z := 60 * time_Second.
Definition deploymentRolloutTimeout : Z := 5 * time_Minute.

Definition sharedVolumeMount : VolumeMount :=
  mkVolumeMount baremetalSharedVolume "/shared" false.

Definition ironicCredentialsMount : VolumeMount :=
  mkVolumeMount ironicCredentialsVolume (metal3AuthRootDir +:+ "/ironic") true.

Definition rpcCredentialsMount : VolumeMount :=
  mkVolumeMount ironicrpcCredentialsVolume (metal3AuthRootDir +:+ "/ironic-rpc") true.

Definition inspectorCredentialsMount : VolumeMount :=
  mkVolumeMount inspectorCredentialsVolume (metal3AuthRootDir +:+ "/ironic-inspector") true.

Definition ironicTlsMount : VolumeMount :=
  mkVolumeMount ironicTlsVolume (metal3TlsRootDir +:+ "/ironic") true.

Definition inspectorTlsMount : VolumeMount :=
  mkVolumeMount inspectorTlsVolume (metal3TlsRootDir +:+ "/ironic-inspector") true.

(** The resource requests of every container: a CPU and a memory quantity. *)
Definition requests (cpu memory : string) : ResourceRequirements :=
  mkResourceRequirements
    {[ ResourceCPU := resource_MustParse cpu; ResourceMemory := resource_MustParse memory ]}.

(** [&corev1.SecurityContext{Privileged: pointer.BoolPtr(true)}]. *)
Definition privileged : option SecurityContext := Some (mkSecurityContext (Some true)).

Section Rendering.
Context {pkg : PackageDecls}.

Definition mariadbPassword : EnvVar :=
  envFrom mariadbPwdEnvVar (SecretKeyRef baremetalSecretName baremetalSecretKey).

Definition pullSecret : EnvVar :=
  envFrom pullSecretEnvVar (SecretKeyRef pullSecretName openshiftConfigSecretKey).

Definition credentialItems : list KeyToPath :=
  [ mkKeyToPath ironicUsernameKey ironicUsernameKey;
    mkKeyToPath ironicPasswordKey ironicPasswordKey;
    mkKeyToPath ironicConfigKey ironicConfigKey ].

Definition metal3Volumes : list Volume :=
  [ mkVolume baremetalSharedVolume EmptyDir;
    imageVolume;
    mkVolume ironicCredentialsVolume (Secret ironicSecretName credentialItems);
    mkVolume ironicrpcCredentialsVolume (Secret ironicrpcSecretName credentialItems);
    mkVolume inspectorCredentialsVolume (Secret inspectorSecretName credentialItems);
    mkVolume "trusted-ca"
      (ConfigMap externalTrustBundleConfigMapName
         [mkKeyToPath "ca-bundle.crt" "tls-ca-bundle.pem"] (Some true));
    mkVolume ironicTlsVolume (Secret tlsSecretName []);
    mkVolume inspectorTlsVolume (Secret tlsSecretName []) ].

(** *** Environment variables *)

Definition buildEnvVar (name : string) (baremetalProvisioningConfig : ProvisioningSpec) : EnvVar :=
  match getMetal3DeploymentConfig name baremetalProvisioningConfig with
  | Some value => envValue name value
  | None =>
      if bool_decide (name = provisioningIP)
         && bool_decide (Spec_ProvisioningNetwork baremetalProvisioningConfig
                         = ProvisioningNetworkDisabled)
      then envFrom name (FieldRef "status.hostIP")
      else mkEnvVar name "" None
  end.

Definition setIronicHtpasswdHash (name secretName : string) : EnvVar :=
  envFrom name (SecretKeyRef secretName ironicHtpasswdKey).

Definition setIronicExternalIp (name : string) (config : ProvisioningSpec) : EnvVar :=
  if bool_decide (Spec_ProvisioningNetwork config ≠ ProvisioningNetworkDisabled)
     && VirtualMediaViaExternalNetwork config
  then envFrom name (FieldRef "status.hostIP")
  else mkEnvVar name "" None.

Definition getWatchNamespace (config : ProvisioningSpec) : EnvVar :=
  if WatchAllNamespaces config
  then envValue "WATCH_NAMESPACE" ""
  else envFrom "WATCH_NAMESPACE" (FieldRef "metadata.namespace").

Definition buildSSHKeyEnvVar (sshKey : string) : EnvVar :=
  envValue sshKeyEnvVar sshKey.

Definition envWithMasterMacAddresses (envVars : list EnvVar) (macs : list string) : list EnvVar :=
  envVars ++ [envValue "PROVISIONING_MACS" (strings_Join macs ",")].

Definition envWithProxy (proxy : option Proxy) (envVars : list EnvVar) : list EnvVar :=
  match proxy with
  | None => envVars
  | Some proxy =>
      let envVars :=
        if bool_decide (HTTPProxy proxy ≠ "")
        then envVars ++ [envValue "HTTP_PROXY" (HTTPProxy proxy)] else envVars in
      let envVars :=
        if bool_decide (HTTPSProxy proxy ≠ "")
        then envVars ++ [envValue "HTTPS_PROXY" (HTTPSProxy proxy)] else envVars in
      let envVars :=
        if bool_decide (NoProxy proxy ≠ "")
        then envVars ++ [envValue "NO_PROXY" (NoProxy proxy)] else envVars in
      envVars
  end.

(** The mount [mountsWithTrustedCA] appends. *)
Definition trustedCAMount : VolumeMount :=
  mkVolumeMount "trusted-ca" "/etc/pki/ca-trust/extracted/pem" true.

Definition mountsWithTrustedCA (mounts : list VolumeMount) : list VolumeMount :=
  mounts ++ [trustedCAMount].

(** One iteration of the loop of [injectProxyAndCA]: the two assignments to
    the loop's copy of the container. *)
Definition injectProxyAndCA_body (proxy : option Proxy) (container : Container) : Container :=
  mkContainer (Container_Name container) (Container_Image container)
    (Container_Command container) (Container_Args container)
    (Container_Ports container)
    (envWithProxy proxy (Container_Env container))
    (Container_Resources container)
    (mountsWithTrustedCA (Container_VolumeMounts container))
    (Container_ImagePullPolicy container)
    (Container_SecurityContext container).

(** The loop itself: [injectedContainers] holds what the iterations so far
    have appended. *)
Fixpoint injectProxyAndCA_loop (containers : list Container) (proxy : option Proxy)
    (injectedContainers : list Container) : list Container :=
  match containers with
  | [] => injectedContainers
  | container :: rest =>
      injectProxyAndCA_loop rest proxy
        (injectedContainers ++ [injectProxyAndCA_body proxy container])
  end.

Definition injectProxyAndCA (containers : list Container) (proxy : option Proxy) : list Container :=
  injectProxyAndCA_loop containers proxy [].

(** *** Init containers *)

Definition createInitContainerIpaDownloader (images : Images) : Container :=
  {| Container_Name := "metal3-ipa-downloader";
     Container_Image := IpaDownloader images;
     Container_Command := ["/usr/local/bin/get-resource.sh"];
     Container_Args := [];
     Container_Ports := [];
     Container_ImagePullPolicy := "IfNotPresent";
     Container_SecurityContext := privileged;
     Container_VolumeMounts := [imageVolumeMount];
     Container_Env := [];
     Container_Resources := requests "10m" "50Mi" |}.

Definition createInitContainerConfigureCoreOSIPA (info : ProvisioningInfo) : Container :=
  let config := ProvConfig_Spec info in
  {| Container_Name := "metal3-configure-coreos-ipa";
     Container_Image := Ironic (Info_Images info);
     Container_Command := ["/bin/configure-coreos-ipa"];
     Container_Args := [];
     Container_Ports := [];
     Container_ImagePullPolicy := "IfNotPresent";
     Container_SecurityContext := privileged;
     Container_VolumeMounts :=
       [sharedVolumeMount; imageVolumeMount; ironicCredentialsMount; ironicTlsMount];
     Container_Env :=
       envWithMasterMacAddresses
         [ buildEnvVar provisioningIP config;
           buildEnvVar provisioningInterface config;
           buildSSHKeyEnvVar (SSHKey info);
           pullSecret ]
         (MasterMacAddresses info);
     Container_Resources := requests "10m" "50Mi" |}.

Definition ipOptionForMachineOsDownloader (info : ProvisioningInfo) : string :=
  match NetworkStack info with
  | NetworkStackV4 => "ip=dhcp"
  | NetworkStackV6 => "ip=dhcp6"
  | NetworkStackDual => ""
  end.

Definition createInitContainerMachineOsDownloader (info : ProvisioningInfo)
    (imageURLs : string) (useLiveImages setIpOptions : bool) : Container :=
  let command :=
    if useLiveImages
    then "/usr/local/bin/get-live-images.sh"
    else "/usr/local/bin/get-resource.sh" in
  let env := [envValue machineImageUrl imageURLs] in
  let env :=
    if setIpOptions
    then env ++ [envValue ipOptions (ipOptionForMachineOsDownloader info)]
    else env in
  {| Container_Name := "metal3-machine-os-downloader";
     Container_Image := MachineOsDownloader (Info_Images info);
     Container_Command := [command];
     Container_Args := [];
     Container_Ports := [];
     Container_ImagePullPolicy := "IfNotPresent";
     Container_SecurityContext := privileged;
     Container_VolumeMounts := [imageVolumeMount];
     Container_Env := env;
     Container_Resources := requests "10m" "50Mi" |}.

Definition createInitContainerStaticIpSet (images : Images) (config : ProvisioningSpec) : Container :=
  {| Container_Name := "metal3-static-ip-set";
     Container_Image := StaticIpManager images;
     Container_Command := ["/set-static-ip"];
     Container_Args := [];
     Container_Ports := [];
     Container_ImagePullPolicy := "IfNotPresent";
     Container_SecurityContext := privileged;
     Container_VolumeMounts := [];
     Container_Env :=
       [ buildEnvVar provisioningIP config;
         buildEnvVar provisioningInterface config ];
     Container_Resources := requests "10m" "50Mi" |}.

(** The value of the local [initContainers] of [newMetal3InitContainers] when
    the function reaches its [return]: the list before the injection pass. *)
Definition newMetal3InitContainers_initContainers (info : ProvisioningInfo) : list Container :=
  let spec := ProvConfig_Spec info in
  let initContainers := [] in
  let initContainers :=
    if bool_decide (ProvisioningIP spec ≠ "")
       && bool_decide (Spec_ProvisioningNetwork spec ≠ ProvisioningNetworkDisabled)
    then initContainers ++ [createInitContainerStaticIpSet (Info_Images info) spec]
    else initContainers in
  let liveURLs := getPreProvisioningOSDownloadURLs spec in
  let initContainers :=
    if bool_decide (0 < length liveURLs)%nat
    then
      let initContainers :=
        initContainers
          ++ [createInitContainerMachineOsDownloader info (strings_Join liveURLs ",") true true] in
      if bool_decide (IsoURL (Spec_PreProvisioningOSDownloadURLs spec) ≠ "")
      then initContainers ++ [createInitContainerConfigureCoreOSIPA info]
      else initContainers
    else initContainers in
  let initContainers :=
    if bool_decide (ProvisioningOSDownloadURL spec ≠ "")
    then initContainers
           ++ [createInitContainerMachineOsDownloader info (ProvisioningOSDownloadURL spec)
                 false true]
    else initContainers in
  let initContainers :=
    if negb (isCoreOSIPAAvailable spec)
    then initContainers ++ [createInitContainerIpaDownloader (Info_Images info)]
    else initContainers in
  initContainers.

Definition newMetal3InitContainers (info : ProvisioningInfo) : list Container :=
  injectProxyAndCA (newMetal3InitContainers_initContainers info) (Info_Proxy info).

(** *** Containers *)

Definition createContainerMetal3BaremetalOperator (images : Images) (config : ProvisioningSpec) : Container :=
  {| Container_Name := "metal3-baremetal-operator";
     Container_Image := BaremetalOperator images;
     Container_Ports := [mkContainerPort "metrics" 60000 60000];
     Container_Command := ["/baremetal-operator"];
     Container_Args := ["--health-addr"; ":9446"];
     Container_ImagePullPolicy := "IfNotPresent";
     Container_SecurityContext := None;
     Container_VolumeMounts :=
       [ironicCredentialsMount; inspectorCredentialsMount; ironicTlsMount];
     Container_Env :=
       [ getWatchNamespace config;
         envFrom "POD_NAMESPACE" (FieldRef "metadata.namespace");
         envFrom "POD_NAME" (FieldRef "metadata.name");
         envValue "OPERATOR_NAME" "baremetal-operator";
         envValue ironicCertEnvVar (metal3TlsRootDir +:+ "/ironic/" +:+ TLSCertKey);
         envValue ironicInsecureEnvVar "true";
         buildEnvVar deployKernelUrl config;
         buildEnvVar deployRamdiskUrl config;
         buildEnvVar ironicEndpoint config;
         buildEnvVar ironicInspectorEndpoint config;
         envValue "METAL3_AUTH_ROOT_DIR" metal3AuthRootDir ];
     Container_Resources := requests "20m" "50Mi" |}.

Definition createContainerMetal3Dnsmasq (images : Images) (config : ProvisioningSpec)
    (macs : list string) : Container :=
  {| Container_Name := "metal3-dnsmasq";
     Container_Image := Ironic images;
     Container_ImagePullPolicy := "IfNotPresent";
     Container_SecurityContext := privileged;
     Container_Command := ["/bin/rundnsmasq"];
     Container_Args := [];
     Container_Ports := [];
     Container_VolumeMounts := [sharedVolumeMount; imageVolumeMount];
     Container_Env :=
       envWithMasterMacAddresses
         [ buildEnvVar httpPort config;
           buildEnvVar provisioningInterface config;
           buildEnvVar dhcpRange config ]
         macs;
     Container_Resources := requests "5m" "5Mi" |}.

Definition createContainerMetal3Mariadb (images : Images) : Container :=
  {| Container_Name := "metal3-mariadb";
     Container_Image := Ironic images;
     Container_ImagePullPolicy := "IfNotPresent";
     Container_SecurityContext := privileged;
     Container_Command := ["/bin/runmariadb"];
     Container_Args := [];
     Container_VolumeMounts := [sharedVolumeMount];
     Container_Env := [mariadbPassword];
     Container_Ports := [mkContainerPort "mysql" 3306 3306];
     Container_Resources := requests "15m" "80Mi" |}.

Definition createContainerMetal3Httpd (images : Images) (config : ProvisioningSpec)
    (macs : list string) (sshKey : string) : Container :=
  let port := default 0 (strconv_Atoi baremetalHttpPort) in
  {| Container_Name := "metal3-httpd";
     Container_Image := Ironic images;
     Container_ImagePullPolicy := "IfNotPresent";
     Container_SecurityContext := privileged;
     Container_Command := ["/bin/runhttpd"];
     Container_Args := [];
     Container_VolumeMounts :=
       [sharedVolumeMount; imageVolumeMount; ironicTlsMount; inspectorTlsMount];
     Container_Env :=
       envWithMasterMacAddresses
         [ buildEnvVar httpPort config;
           buildEnvVar provisioningIP config;
           buildEnvVar provisioningInterface config;
           buildSSHKeyEnvVar sshKey ]
         macs;
     Container_Ports := [mkContainerPort httpPortName (int32 port) (int32 port)];
     Container_Resources := requests "5m" "50Mi" |}.

Definition createContainerMetal3IronicConductor (images : Images) (config : ProvisioningSpec)
    (macs : list string) (sshKey : string) : Container :=
  {| Container_Name := "metal3-ironic-conductor";
     Container_Image := Ironic images;
     Container_ImagePullPolicy := "IfNotPresent";
     Container_SecurityContext := privileged;
     Container_Command := ["/bin/runironic-conductor"];
     Container_Args := [];
     Container_VolumeMounts :=
       [ sharedVolumeMount; imageVolumeMount; inspectorCredentialsMount;
         rpcCredentialsMount; ironicTlsMount; inspectorTlsMount ];
     Container_Env :=
       envWithMasterMacAddresses
         [ mariadbPassword;
           envValue ironicInsecureEnvVar "true";
           envValue inspectorInsecureEnvVar "true";
           buildEnvVar httpPort config;
           buildEnvVar provisioningIP config;
           buildEnvVar provisioningInterface config;
           buildSSHKeyEnvVar sshKey;
           setIronicHtpasswdHash htpasswdEnvVar ironicrpcSecretName;
           setIronicExternalIp externalIpEnvVar config ]
         macs;
     Container_Ports := [mkContainerPort "json-rpc" 8089 8089];
     Container_Resources := requests "50m" "500Mi" |}.

Definition createContainerMetal3IronicApi (images : Images) (config : ProvisioningSpec)
    (macs : list string) : Container :=
  {| Container_Name := "metal3-ironic-api";
     Container_Image := Ironic images;
     Container_ImagePullPolicy := "IfNotPresent";
     Container_SecurityContext := privileged;
     Container_Command := ["/bin/runironic-api"];
     Container_Args := [];
     Container_VolumeMounts := [sharedVolumeMount; rpcCredentialsMount; ironicTlsMount];
     Container_Env :=
       envWithMasterMacAddresses
         [ mariadbPassword;
           envValue ironicInsecureEnvVar "true";
           buildEnvVar httpPort config;
           buildEnvVar provisioningIP config;
           buildEnvVar provisioningInterface config;
           setIronicHtpasswdHash htpasswdEnvVar ironicSecretName;
           setIronicExternalIp externalIpEnvVar config ]
         macs;
     Container_Ports := [mkContainerPort "ironic" 6385 6385];
     Container_Resources := requests "150m" "300Mi" |}.

Definition createContainerIronicDeployRamdiskLogs (images : Images) : Container :=
  {| Container_Name := "ironic-deploy-ramdisk-logs";
     Container_Image := Ironic images;
     Container_ImagePullPolicy := "IfNotPresent";
     Container_SecurityContext := privileged;
     Container_Command := ["/bin/runlogwatch.sh"];
     Container_Args := [];
     Container_Ports := [];
     Container_Env := [];
     Container_VolumeMounts := [sharedVolumeMount];
     Container_Resources := requests "10m" "5Mi" |}.

Definition createContainerMetal3IronicInspector (images : Images) (config : ProvisioningSpec)
    (macs : list string) : Container :=
  {| Container_Name := "metal3-ironic-inspector";
     Container_Image := Ironic images;
     Container_ImagePullPolicy := "IfNotPresent";
     Container_SecurityContext := privileged;
     Container_Command := ["/bin/runironic-inspector"];
     Container_Args := [];
     Container_VolumeMounts :=
       [sharedVolumeMount; ironicCredentialsMount; ironicTlsMount; inspectorTlsMount];
     Container_Env :=
       envWithMasterMacAddresses
         [ envValue ironicInsecureEnvVar "true";
           buildEnvVar provisioningIP config;
           buildEnvVar provisioningInterface config;
           setIronicHtpasswdHash htpasswdEnvVar inspectorSecretName ]
         macs;
     Container_Ports := [mkContainerPort "inspector" 5050 5050];
     Container_Resources := requests "40m" "100Mi" |}.

Definition createContainerIronicInspectorRamdiskLogs (images : Images) : Container :=
  {| Container_Name := "ironic-inspector-ramdisk-logs";
     Container_Image := Ironic images;
     Container_ImagePullPolicy := "IfNotPresent";
     Container_SecurityContext := privileged;
     Container_Command := ["/bin/runlogwatch.sh"];
     Container_Args := [];
     Container_Ports := [];
     Container_Env := [];
     Container_VolumeMounts := [sharedVolumeMount];
     Container_Resources := requests "10m" "5Mi" |}.

Definition createContainerMetal3StaticIpManager (images : Images) (config : ProvisioningSpec)
    (macs : list string) : Container :=
  {| Container_Name := "metal3-static-ip-manager";
     Container_Image := StaticIpManager images;
     Container_Command := ["/refresh-static-ip"];
     Container_Args := [];
     Container_Ports := [];
     Container_ImagePullPolicy := "IfNotPresent";
     Container_SecurityContext := privileged;
     Container_VolumeMounts := [];
     Container_Env :=
       envWithMasterMacAddresses
         [ buildEnvVar provisioningIP config;
           buildEnvVar provisioningInterface config ]
         macs;
     Container_Resources := requests "5m" "50Mi" |}.

(** The value of the local [containers] of [newMetal3Containers] when the
    function reaches its [return]: the list before the injection pass. *)
Definition newMetal3Containers_containers (info : ProvisioningInfo) : list Container :=
  let images := Info_Images info in
  let spec := ProvConfig_Spec info in
  let macs := MasterMacAddresses info in
  let containers :=
    [ createContainerMetal3BaremetalOperator images spec;
      createContainerMetal3Mariadb images;
      createContainerMetal3Httpd images spec macs (SSHKey info);
      createContainerMetal3IronicConductor images spec macs (SSHKey info);
      createContainerIronicInspectorRamdiskLogs images;
      createContainerMetal3IronicApi images spec macs;
      createContainerIronicDeployRamdiskLogs images;
      createContainerMetal3IronicInspector images spec macs ] in
  let containers :=
    if bool_decide (ProvisioningIP spec ≠ "")
       && bool_decide (Spec_ProvisioningNetwork spec ≠ ProvisioningNetworkDisabled)
    then containers ++ [createContainerMetal3StaticIpManager images spec macs]
    else containers in
  let containers :=
    if bool_decide (Spec_ProvisioningNetwork spec ≠ ProvisioningNetworkDisabled)
    then containers ++ [createContainerMetal3Dnsmasq images spec macs]
    else containers in
  containers.

Definition newMetal3Containers (info : ProvisioningInfo) : list Container :=
  injectProxyAndCA (newMetal3Containers_containers info) (Info_Proxy info).

(** *** Pod template and deployment *)

Definition newMetal3PodTemplateSpec (info : ProvisioningInfo) (labels : gmap string string)
    : PodTemplateSpec :=
  let initContainers := newMetal3InitContainers info in
  let containers := newMetal3Containers info in
  let tolerations :=
    [ mkToleration "node-role.kubernetes.io/master" "Exists" "NoSchedule" None;
      mkToleration "CriticalAddonsOnly" "Exists" "" None;
      mkToleration "node.kubernetes.io/not-ready" "Exists" "NoExecute" (Some 120);
      mkToleration "node.kubernetes.io/unreachable" "Exists" "NoExecute" (Some 120) ] in
  {| Template_Annotations := podTemplateAnnotations;
     Template_Labels := labels;
     Template_Spec :=
       {| Volumes := metal3Volumes;
          InitContainers := initContainers;
          Containers := containers;
          HostNetwork := true;
          DNSPolicy := "ClusterFirstWithHostNet";
          PriorityClassName := "system-node-critical";
          NodeSelector := {[ "node-role.kubernetes.io/master" := "" ]};
          PodSpec_SecurityContext := Some (mkPodSecurityContext (Some false));
          ServiceAccountName := "cluster-baremetal-operator";
          Tolerations := tolerations |} |}.

Definition newMetal3Deployment (info : ProvisioningInfo) : Deployment :=
  let selector :=
    mkLabelSelector {[ "k8s-app" := metal3AppName; cboLabelName := stateService ]} [] in
  let podSpecLabels : gmap string string :=
    {[ "k8s-app" := metal3AppName; cboLabelName := stateService ]} in
  let template := newMetal3PodTemplateSpec info podSpecLabels in
  {| Deployment_ObjectMeta :=
       {| Meta_Name := baremetalDeploymentName;
          Meta_Namespace := Namespace info;
          Meta_Generation := 0;
          Meta_Annotations := {[ cboOwnedAnnotation := "" ]};
          Meta_Labels := {[ "k8s-app" := metal3AppName; cboLabelName := stateService ]};
          Meta_OwnerReferences := [] |};
     Deployment_Spec :=
       {| Replicas := Some 1;
          Selector := Some selector;
          Template := template;
          Strategy_Type := "Recreate" |};
     Deployment_Status := mkDeploymentStatus 0 [] |}.

End Rendering.

(** ** Reconciliation *)

(** Go errors: an error of the API server with its [metav1.StatusReason], any
    other error, and [fmt.Errorf(format, wrapped)] for a [format] that ends in
    the verb [%w]. *)
Inductive error :=
  | StatusError (reason : string) (message : string)
  | OtherError (message : string)
  | Errorf (format : string) (wrapped : error).

(** [apierrors.IsNotFound], which looks through wrapped errors. *)
Fixpoint IsNotFound (err : error) : bool :=
  match err with
  | StatusError reason _ => bool_decide (reason = "NotFound")
  | OtherError _ => false
  | Errorf _ wrapped => IsNotFound wrapped
  end.

(** [client.IgnoreNotFound]. *)
Definition IgnoreNotFound (err : option error) : option error :=
  match err with
  | Some e => if IsNotFound e then None else Some e
  | None => None
  end.

(** [equality.Semantic.DeepEqual] at type [*metav1.LabelSelector]: two nil
    pointers are equal, a nil pointer equals no selector, and two selectors
    are compared by value, a nil map or slice being equal to an empty one. *)
Definition DeepEqual (a b : option LabelSelector) : bool := bool_decide (a = b).

(** [time.Duration] is an [int64]; [t.Sub(u)] saturates at its bounds. *)
Definition minDuration : Z := - 2 ^ 63.
Definition maxDuration : Z := 2 ^ 63 - 1.

Definition time_Sub (t u : Z) : Z :=
  let d := t - u in
  if d <? minDuration then minDuration
  else if maxDuration <? d then maxDuration
  else d.

(** The calls that reach the API server. *)
Inductive Call :=
  | CallApplyDeployment (required : Deployment) (expectedGeneration : Z)
  | CallGet (namespace name : string)
  | CallDelete (namespace name : string).

Definition isDelete (c : Call) : bool :=
  match c with
  | CallDelete _ _ => true
  | _ => false
  end.

Definition deleteCalls (calls : list Call) : nat := length (filter isDelete calls).

(** What the reconciler calls outside the package. [World] is everything
    outside the process: the API server and the clock. Instants are counted in
    nanoseconds. *)
Class Cluster (World : Type) := {
  (* time.Now() *)
  time_Now : World -> Z;
  (* resourceapply.ApplyDeployment: the deployment, whether it changed, the error *)
  ApplyDeployment :
    Deployment -> Z -> World -> (option Deployment * bool * option error) * World;
  (* client.Deployments(namespace).Get(ctx, name, opts) *)
  Deployments_Get : string -> string -> World -> (option Deployment * option error) * World;
  (* client.Deployments(namespace).Delete(ctx, name, opts) *)
  Deployments_Delete : string -> string -> World -> option error * World;
  (* controllerutil.SetControllerReference(info.ProvConfig, deployment, info.Scheme):
     the error, or the owner references the deployment ends up with *)
  SetControllerReference : ObjectMeta -> error + list OwnerReference;
  (* resourcemerge.ExpectedDeploymentGeneration and SetDeploymentGeneration *)
  ExpectedDeploymentGeneration : Deployment -> list GenerationStatus -> Z;
  SetDeploymentGeneration : list GenerationStatus -> option Deployment -> list GenerationStatus
}.

(** The state a reconcile runs in: the world, the package variable
    [deploymentRolloutStartTime], [info.ProvConfig.Status.Generations], and
    the log of the calls made so far (most recent last). *)
Record State {World : Type} := mkState {
  world : World;
  deploymentRolloutStartTime : Z;
  Generations : list GenerationStatus;
  calls : list Call
}.
Arguments State : clear implicits.
Arguments mkState {World}.

Section Reconciler.
Context {pkg : PackageDecls} {World : Type} {cluster : Cluster World}.

Definition setOwnerReferences (refs : list OwnerReference) (d : Deployment) : Deployment :=
  let m := Deployment_ObjectMeta d in
  mkDeployment
    (mkObjectMeta (Meta_Name m) (Meta_Namespace m) (Meta_Generation m)
       (Meta_Annotations m) (Meta_Labels m) refs)
    (Deployment_Spec d) (Deployment_Status d).

(** The three calls to the API server, each entered in the log. *)
Definition callApply (required : Deployment) (expectedGeneration : Z) (st : State World)
    : (option Deployment * bool * option error) * State World :=
  let '(r, w) := ApplyDeployment required expectedGeneration (world st) in
  (r, mkState w (deploymentRolloutStartTime st) (Generations st)
        (calls st ++ [CallApplyDeployment required expectedGeneration])).

Definition callGet (namespace name : string) (st : State World)
    : (option Deployment * option error) * State World :=
  let '(r, w) := Deployments_Get namespace name (world st) in
  (r, mkState w (deploymentRolloutStartTime st) (Generations st)
        (calls st ++ [CallGet namespace name])).

Definition callDelete (namespace name : string) (st : State World)
    : option error * State World :=
  let '(r, w) := Deployments_Delete namespace name (world st) in
  (r, mkState w (deploymentRolloutStartTime st) (Generations st)
        (calls st ++ [CallDelete namespace name])).

Definition getMetal3DeploymentSelector (targetNamespace : string) (st : State World)
    : (option LabelSelector * option error) * State World :=
  let '((existing, err), st) := callGet targetNamespace baremetalDeploymentName st in
  match existing, err with
  | Some existing, None => ((Selector (Deployment_Spec existing), None), st)
  | _, _ => ((None, err), st)
  end.

Definition DeleteMetal3Deployment (info : ProvisioningInfo) (st : State World)
    : option error * State World :=
  let '(err, st) := callDelete (Namespace info) baremetalDeploymentName st in
  (IgnoreNotFound err, st).

(** The end of [EnsureMetal3Deployment], after the [if err != nil] block. *)
Definition EnsureMetal3Deployment_finish (deployment : option Deployment) (updated : bool)
    (st : State World) : (bool * option error) * State World :=
  let st :=
    if updated
    then mkState (world st) (deploymentRolloutStartTime st)
           (SetDeploymentGeneration (Generations st) deployment) (calls st)
    else st in
  ((updated, None), st).

(** [EnsureMetal3Deployment] returns its named results [(updated, err)]. *)
Definition EnsureMetal3Deployment (info : ProvisioningInfo) (st : State World)
    : (bool * option error) * State World :=
  let metal3Deployment := newMetal3Deployment info in
  let expectedGeneration := ExpectedDeploymentGeneration metal3Deployment (Generations st) in
  match SetControllerReference (Deployment_ObjectMeta metal3Deployment) with
  | inl err =>
      ((false, Some (Errorf "unable to set controllerReference on deployment: %w" err)), st)
  | inr refs =>
      let metal3Deployment := setOwnerReferences refs metal3Deployment in
      let st := mkState (world st) (time_Now (world st)) (Generations st) (calls st) in
      let '((deployment, updated, err), st) :=
        callApply metal3Deployment expectedGeneration st in
      match err with
      | Some err =>
          let err := Errorf "unable to apply Metal3 deployment: %w" err in
          let '((selector, get_err), st) :=
            getMetal3DeploymentSelector (Namespace info) st in
          if bool_decide (get_err ≠ None)
             || DeepEqual selector (Selector (Deployment_Spec metal3Deployment))
          then ((updated, Some err), st)
          else
            let '(delete_err, st) := DeleteMetal3Deployment info st in
            match delete_err with
            | Some delete_err =>
                ((updated,
                  Some (Errorf
                          "unable to delete Metal3 deployment with incorrect Pod Selector: %w"
                          delete_err)), st)
            | None => EnsureMetal3Deployment_finish deployment updated st
            end
      | None => EnsureMetal3Deployment_finish deployment updated st
      end
  end.

Fixpoint getDeploymentCondition_loop (conditions : list DeploymentCondition)
    : DeploymentConditionType :=
  match conditions with
  | [] => DeploymentProgressing
  | cond :: rest =>
      if bool_decide (Condition_Status cond = ConditionTrue)
      then Condition_Type cond
      else getDeploymentCondition_loop rest
  end.

Definition getDeploymentCondition (deployment : Deployment) : DeploymentConditionType :=
  getDeploymentCondition_loop (Conditions (Deployment_Status deployment)).

(** [time.Since(t)], read off the clock of the world. *)
Definition time_Since (w : World) (t : Z) : Z := time_Sub (time_Now w) t.

Definition GetDeploymentState (targetNamespace : string) (st : State World)
    : (DeploymentConditionType * option error) * State World :=
  let '((existing, err), st) := callGet targetNamespace baremetalDeploymentName st in
  match err, existing with
  | None, Some existing =>
      let deploymentState := getDeploymentCondition existing in
      if bool_decide (deploymentState = DeploymentProgressing)
         && bool_decide (deploymentRolloutTimeout
                         ≤ time_Since (world st) (deploymentRolloutStartTime st))
      then ((DeploymentReplicaFailure, None), st)
      else ((deploymentState, None), st)
  | _, _ => ((DeploymentReplicaFailure, err), st)
  end.

End Reconciler.

(** ** Concrete surroundings for the examples *)

(** The declarations of the sibling files, with the live-image URLs and the
    availability of the CoreOS IPA assets answered as given. *)
Definition examplePackage (liveURLs : list string) (ipaAvailable : bool) : PackageDecls :=
  {| provisioningIP := "PROVISIONING_IP";
     provisioningInterface := "PROVISIONING_INTERFACE";
     deployKernelUrl := "DEPLOY_KERNEL_URL";
     deployRamdiskUrl := "DEPLOY_RAMDISK_URL";
     ironicEndpoint := "IRONIC_ENDPOINT";
     ironicInspectorEndpoint := "IRONIC_INSPECTOR_ENDPOINT";
     httpPort := "HTTP_PORT";
     dhcpRange := "DHCP_RANGE";
     machineImageUrl := "RHCOS_IMAGE_URL";
     ipOptions := "IP_OPTIONS";
     baremetalHttpPort := "6180";
     httpPortName := "http";
     baremetalSecretName := "metal3-mariadb-password";
     baremetalSecretKey := "password";
     pullSecretName := "pull-secret";
     openshiftConfigSecretKey := ".dockerconfigjson";
     ironicSecretName := "metal3-ironic-password";
     ironicrpcSecretName := "metal3-ironic-rpc-password";
     inspectorSecretName := "metal3-ironic-inspector-password";
     tlsSecretName := "metal3-ironic-tls";
     ironicHtpasswdKey := "htpasswd";
     ironicUsernameKey := "username";
     ironicPasswordKey := "password";
     ironicConfigKey := "auth-config";
     stateService := "metal3-state";
     imageVolume := mkVolume "metal3-images" (OtherVolumeSource "hostPath /var/lib/metal3/images");
     imageVolumeMount := mkVolumeMount "metal3-images" "/shared/html/images" false;
     getMetal3DeploymentConfig := fun name config =>
       if bool_decide (name = "PROVISIONING_IP") && bool_decide (ProvisioningIP config ≠ "")
       then Some (ProvisioningIP config)
       else None;
     getPreProvisioningOSDownloadURLs := fun _ => liveURLs;
     isCoreOSIPAAvailable := fun _ => ipaAvailable |}.

Definition exampleImages : Images :=
  {| BaremetalOperator := "registry/baremetal-operator";
     Ironic := "registry/ironic";
     MachineOsDownloader := "registry/machine-os-downloader";
     StaticIpManager := "registry/static-ip-manager";
     IpaDownloader := "registry/ipa-downloader" |}.

Definition exampleInfo (ip : string) (network : ProvisioningNetwork) (iso download : string)
    (proxy : option Proxy) : ProvisioningInfo :=
  {| ProvConfig_Spec :=
       {| ProvisioningIP := ip;
          Spec_ProvisioningNetwork := network;
          Spec_PreProvisioningOSDownloadURLs := mkPreProvisioningOSDownloadURLs iso;
          ProvisioningOSDownloadURL := download;
          VirtualMediaViaExternalNetwork := false;
          WatchAllNamespaces := false |};
     Namespace := "openshift-machine-api";
     Info_Images := exampleImages;
     Info_Proxy := proxy;
     NetworkStack := NetworkStackV4;
     MasterMacAddresses := ["52:54:00:aa:00:01"; "52:54:00:aa:00:02"];
     SSHKey := "ssh-ed25519 AAAA" |}.

Definition exampleProxy : Proxy :=
  {| HTTPProxy := "http://proxy:3128"; HTTPSProxy := ""; NoProxy := ".cluster.local" |}.

(** A scripted API server: it holds the deployment it stores, answers
    [ApplyDeployment], [Get] and [Delete] with the scripted error when there
    is one, and otherwise stores, returns or removes the deployment. *)
Record Scripted := mkScripted {
  scripted_now : Z;
  scripted_stored : option Deployment;
  scripted_applyError : option error;
  scripted_getError : option error;
  scripted_deleteError : option error
}.

Definition notFound : error := StatusError "NotFound" "deployments.apps metal3 not found".

Definition scriptedCluster : Cluster Scripted :=
  {| time_Now := scripted_now;
     ApplyDeployment := fun required _ w =>
       match scripted_applyError w with
       | Some e => ((None, false, Some e), w)
       | None =>
           ((Some required, true, None),
            mkScripted (scripted_now w) (Some required) None
              (scripted_getError w) (scripted_deleteError w))
       end;
     Deployments_Get := fun _ _ w =>
       match scripted_getError w, scripted_stored w with
       | Some e, _ => ((None, Some e), w)
       | None, Some d => ((Some d, None), w)
       | None, None => ((None, Some notFound), w)
       end;
     Deployments_Delete := fun _ _ w =>
       match scripted_deleteError w, scripted_stored w with
       | Some e, _ => (Some e, w)
       | None, Some _ =>
           (None, mkScripted (scripted_now w) None (scripted_applyError w)
                    (scripted_getError w) None)
       | None, None => (Some notFound, w)
       end;
     SetControllerReference := fun _ =>
       inr [mkOwnerReference "Provisioning" "provisioning-configuration" (Some true)];
     ExpectedDeploymentGeneration := fun _ _ => -1;
     SetDeploymentGeneration := fun generations _ => generations |}.

(** A deployment as an older release left it: selected by [k8s-app] alone. *)
Definition olderDeployment (conditions : list DeploymentCondition) : Deployment :=
  {| Deployment_ObjectMeta :=
       mkObjectMeta baremetalDeploymentName "openshift-machine-api" 3 ∅ ∅ [];
     Deployment_Spec :=
       {| Replicas := Some 1;
          Selector := Some (mkLabelSelector {[ "k8s-app" := metal3AppName ]} []);
          Template :=
            mkPodTemplateSpec ∅ ∅
              (mkPodSpec [] [] [] true "" "" ∅ None "" []);
          Strategy_Type := "Recreate" |};
     Deployment_Status := mkDeploymentStatus 3 conditions |}.

Definition immutableSelector : error :=
  StatusError "Invalid" "spec.selector: field is immutable".

(** ** Vocabulary of the properties *)

(** A container list includes the component of a given name. *)
Definition hasContainer (name : string) (containers : list Container) : Prop :=
  name ∈ Container_Name <$> containers.

(** Two containers agree on every field but [Env] and [VolumeMounts]. *)
Definition agreeOutsideEnvAndMounts (c c' : Container) : Prop :=
  Container_Name c' = Container_Name c
  ∧ Container_Image c' = Container_Image c
  ∧ Container_Command c' = Container_Command c
  ∧ Container_Args c' = Container_Args c
  ∧ Container_Ports c' = Container_Ports c
  ∧ Container_Resources c' = Container_Resources c
  ∧ Container_ImagePullPolicy c' = Container_ImagePullPolicy c
  ∧ Container_SecurityContext c' = Container_SecurityContext c.

(** The variables of the three proxy settings, before the empty ones are
    left out. *)
Definition proxySettings (p : Proxy) : list EnvVar :=
  [ envValue "HTTP_PROXY" (HTTPProxy p);
    envValue "HTTPS_PROXY" (HTTPSProxy p);
    envValue "NO_PROXY" (NoProxy p) ].

(** The entry [envWithMasterMacAddresses] appends for the MAC addresses of
    [info]. *)
Definition provisioningMacs (info : ProvisioningInfo) : EnvVar :=
  envValue "PROVISIONING_MACS" (strings_Join (MasterMacAddresses info) ",").

(** The value of the first variable of a given name. *)
Fixpoint lookupEnv (name : string) (envVars : list EnvVar) : option string :=
  match envVars with
  | [] => None
  | ev :: rest =>
      if bool_decide (EnvVar_Name ev = name) then Some (EnvVar_Value ev)
      else lookupEnv name rest
  end.

(** [cond] is the first condition of the list whose status is true. *)
Definition firstTrueCondition (conditions : list DeploymentCondition)
    (cond : DeploymentCondition) : Prop :=
  ∃ before after,
    conditions = before ++ cond :: after
    ∧ Forall (λ c, Condition_Status c ≠ ConditionTrue) before
    ∧ Condition_Status cond = ConditionTrue.

(** The containers whose constructors do not call
    [envWithMasterMacAddresses]. *)
Definition containersWithoutMacs : list string :=
  [ "metal3-baremetal-operator"; "metal3-mariadb";
    "ironic-inspector-ramdisk-logs"; "ironic-deploy-ramdisk-logs" ].

(** The gate of the two static-IP containers. *)
Definition staticIpConfigured (spec : ProvisioningSpec) : Prop :=
  ProvisioningIP spec ≠ "" ∧ Spec_ProvisioningNetwork spec ≠ ProvisioningNetworkDisabled.

(** The selector of the deployment rendered for [info]. *)
Definition renderedSelector {pkg : PackageDecls} (info : ProvisioningInfo)
    : option LabelSelector :=
  Selector (Deployment_Spec (newMetal3Deployment info)).

(** The error [EnsureMetal3Deployment] makes of the error of
    [ApplyDeployment], and of the error of the delete. *)
Definition applyFailure (err : error) : error :=
  Errorf "unable to apply Metal3 deployment: %w" err.

Definition deleteFailure (err : error) : error :=
  Errorf "unable to delete Metal3 deployment with incorrect Pod Selector: %w" err.

(** The state in which [EnsureMetal3Deployment] calls [ApplyDeployment]: the
    rollout start is the instant of the call. *)
Definition rolloutStarted {World : Type} {cluster : Cluster World} (st : State World)
    : State World :=
  mkState (world st) (time_Now (world st)) (Generations st) (calls st).

(** A reconcile against the scripted API server: the deployment of an older
    release is stored and [ApplyDeployment] is refused, the selector being
    immutable. [getError] and [deleteError] script the get and the delete. *)
Definition refusedApply (getError deleteError : option error) : State Scripted :=
  mkState
    (mkScripted 1000 (Some (olderDeployment [])) (Some immutableSelector) getError deleteError)
    0 [] [].

(** A status query against the scripted API server, [elapsed] nanoseconds
    after the rollout start, the stored deployment reporting [conditions]. *)
Definition statusQuery (elapsed : Z) (conditions : list DeploymentCondition)
    (getError : option error) : State Scripted :=
  mkState
    (mkScripted (1000 + elapsed) (Some (olderDeployment conditions)) None getError None)
    1000 [] [].

Definition progressingConditions : list DeploymentCondition :=
  [ mkDeploymentCondition DeploymentAvailable ConditionFalse;
    mkDeploymentCondition DeploymentProgressing ConditionTrue;
    mkDeploymentCondition DeploymentReplicaFailure ConditionTrue ].

(** ** Vocabulary of the further properties *)

(** Every container of the pod rendered for [info]: the init containers, then
    the containers, as [newMetal3PodTemplateSpec] takes them. *)
Definition renderedContainers {pkg : PackageDecls} (info : ProvisioningInfo) : list Container :=
  newMetal3InitContainers info ++ newMetal3Containers info.

(** An environment variable does not carry a literal value together with a
    source for its value. *)
Definition valueOrSource (ev : EnvVar) : Prop :=
  EnvVar_Value ev = "" ∨ EnvVar_ValueFrom ev = None.

(** The reference to the IP of the node the pod runs on. *)
Definition hostIP : EnvVarSource := FieldRef "status.hostIP".

(** The variables that hold a password, a password hash or a pull secret. *)
Definition secretVariables : list string :=
  [ mariadbPwdEnvVar; htpasswdEnvVar; pullSecretEnvVar ].

(** The names of variables that the package declares outside
    baremetal_pod.go. *)
Definition packageVariables {pkg : PackageDecls} : list string :=
  [ provisioningIP; provisioningInterface; deployKernelUrl; deployRamdiskUrl;
    ironicEndpoint; ironicInspectorEndpoint; httpPort; dhcpRange; machineImageUrl;
    ipOptions ].

(** A variable that takes its value from a key of a secret, and has no
    literal value. *)
Definition fromSecret (ev : EnvVar) : Prop :=
  EnvVar_Value ev = "" ∧ ∃ name key, EnvVar_ValueFrom ev = Some (SecretKeyRef name key).

(** The scripted API server again, with an owner that cannot be set: the
    [SetControllerReference] of this cluster fails. *)
Definition ownerRefused : error :=
  OtherError "cross-namespace owner references are disallowed".

Definition ownerlessCluster : Cluster Scripted :=
  {| time_Now := time_Now (Cluster := scriptedCluster);
     ApplyDeployment := ApplyDeployment (Cluster := scriptedCluster);
     Deployments_Get := Deployments_Get (Cluster := scriptedCluster);
     Deployments_Delete := Deployments_Delete (Cluster := scriptedCluster);
     SetControllerReference := fun _ => inl ownerRefused;
     ExpectedDeploymentGeneration := ExpectedDeploymentGeneration (Cluster := scriptedCluster);
     SetDeploymentGeneration := SetDeploymentGeneration (Cluster := scriptedCluster) |}.

(** A reconcile against the scripted API server that stores nothing yet and
    refuses nothing, at instant [now], the rollout start being [start]. *)
Definition freshCluster (now start : Z) : State Scripted :=
  mkState (mkScripted now None None None None) start [] [].

Definition availableConditions : list DeploymentCondition :=
  [ mkDeploymentCondition DeploymentProgressing ConditionFalse;
    mkDeploymentCondition DeploymentAvailable ConditionTrue;
    mkDeploymentCondition DeploymentProgressing ConditionTrue ].

(** A reconcile against the scripted API server that stores [stored] and
    refuses the apply. *)
Definition refusedApplyOver (stored : Deployment) : State Scripted :=
  mkState (mkScripted 1000 (Some stored) (Some immutableSelector) None None) 0 [] [].

(** ** The apply configuration of a vSphere platform topology

    The generated builder of the second source file. Its methods have a
    pointer receiver, assign to a field of the receiver and return the
    receiver; each is given here as the function from the configuration
    before the call to the configuration after it. *)

Record VSpherePlatformTopologyApplyConfiguration := mkVSpherePlatformTopology {
  Datacenter : option string;
  ComputeCluster : option string;
  Networks : list string;
  Datastore : option string;
  ResourcePool : option string;
  Folder : option string
}.

Definition VSpherePlatformTopology : VSpherePlatformTopologyApplyConfiguration :=
  mkVSpherePlatformTopology None None [] None None None.

Definition WithDatacenter (b : VSpherePlatformTopologyApplyConfiguration) (value : string)
    : VSpherePlatformTopologyApplyConfiguration :=
  mkVSpherePlatformTopology (Some value) (ComputeCluster b) (Networks b) (Datastore b)
    (ResourcePool b) (Folder b).

Definition WithComputeCluster (b : VSpherePlatformTopologyApplyConfiguration) (value : string)
    : VSpherePlatformTopologyApplyConfiguration :=
  mkVSpherePlatformTopology (Datacenter b) (Some value) (Networks b) (Datastore b)
    (ResourcePool b) (Folder b).

(** The loop of [WithNetworks]: one append for each index of [values]. *)
Fixpoint WithNetworks (b : VSpherePlatformTopologyApplyConfiguration) (values : list string)
    : VSpherePlatformTopologyApplyConfiguration :=
  match values with
  | [] => b
  | value :: rest =>
      WithNetworks
        (mkVSpherePlatformTopology (Datacenter b) (ComputeCluster b) (Networks b ++ [value])
           (Datastore b) (ResourcePool b) (Folder b))
        rest
  end.

Definition WithDatastore (b : VSpherePlatformTopologyApplyConfiguration) (value : string)
    : VSpherePlatformTopologyApplyConfiguration :=
  mkVSpherePlatformTopology (Datacenter b) (ComputeCluster b) (Networks b) (Some value)
    (ResourcePool b) (Folder b).

Definition WithResourcePool (b : VSpherePlatformTopologyApplyConfiguration) (value : string)
    : VSpherePlatformTopologyApplyConfiguration :=
  mkVSpherePlatformTopology (Datacenter b) (ComputeCluster b) (Networks b) (Datastore b)
    (Some value) (Folder b).

Definition WithFolder (b : VSpherePlatformTopologyApplyConfiguration) (value : string)
    : VSpherePlatformTopologyApplyConfiguration :=
  mkVSpherePlatformTopology (Datacenter b) (ComputeCluster b) (Networks b) (Datastore b)
    (ResourcePool b) (Some value).

(** * Properties *)

(** ** Library functions *)

Example strconv_Atoi_port : strconv_Atoi "6180" = Some 6180.
Proof. reflexivity. Qed.

Example strconv_Atoi_signs : strconv_Atoi "-42" = Some (-42) ∧ strconv_Atoi "+7" = Some 7.
Proof. split; reflexivity. Qed.

Example strconv_Atoi_syntax : strconv_Atoi "http" = None ∧ strconv_Atoi "" = None.
Proof. split; reflexivity. Qed.

Example strings_Join_three :
  strings_Join ["a"; "b"; "c"] "," = "a,b,c".
Proof. reflexivity. Qed.

Lemma strings_Join_cons x y rest sep :
  strings_Join (x :: y :: rest) sep = x +:+ sep +:+ strings_Join (y :: rest) sep.
Proof. reflexivity. Qed.

(** ** The injection pass *)

Lemma injectProxyAndCA_loop_fmap containers proxy injected :
  injectProxyAndCA_loop containers proxy injected
  = injected ++ (injectProxyAndCA_body proxy <$> containers).
Proof.
  revert injected.
  induction containers as [|c rest IH]; intros injected; simpl.
  - by rewrite app_nil_r.
  - rewrite IH, <- app_assoc. reflexivity.
Qed.

Lemma injectProxyAndCA_fmap containers proxy :
  injectProxyAndCA containers proxy = injectProxyAndCA_body proxy <$> containers.
Proof. unfold injectProxyAndCA. by rewrite injectProxyAndCA_loop_fmap. Qed.

Lemma injectProxyAndCA_names containers proxy :
  Container_Name <$> injectProxyAndCA containers proxy = Container_Name <$> containers.
Proof.
  rewrite injectProxyAndCA_fmap, <- list_fmap_compose.
  apply list_fmap_ext. by intros ? [].
Qed.

Lemma envWithProxy_app proxy envVars :
  envWithProxy proxy envVars = envVars ++ envWithProxy proxy [].
Proof.
  destruct proxy as [p|]; simpl; [|by rewrite app_nil_r].
  repeat case_bool_decide; simpl; rewrite <- ?app_assoc, ?app_nil_r; reflexivity.
Qed.

(** The variables [envWithProxy] appends, read off the proxy. *)
Lemma envWithProxy_nil_Some p :
  envWithProxy (Some p) []
  = filter (λ ev, EnvVar_Value ev ≠ "") (proxySettings p).
Proof.
  unfold proxySettings. simpl. rewrite !filter_cons, filter_nil. simpl.
  repeat case_bool_decide; repeat case_decide; try done.
Qed.

Lemma injectProxyAndCA_body_agree proxy c :
  agreeOutsideEnvAndMounts c (injectProxyAndCA_body proxy c).
Proof. repeat split. Qed.

Lemma Forall2_fmap_diag {A} (P : A → A → Prop) (f : A → A) (l : list A) :
  (∀ x, P x (f x)) → Forall2 P l (f <$> l).
Proof.
  intros HP. apply Forall2_fmap_r, Forall_Forall2_diag, Forall_forall.
  intros x _. apply HP.
Qed.

(** C10: [injectProxyAndCA] keeps the length and the order of the list; each
    output container agrees with its input container on every field except
    [Env] and [VolumeMounts]; its [Env] has the input [Env] as a prefix; its
    [VolumeMounts] are the input mounts followed by exactly one read-only
    trusted-CA mount at /etc/pki/ca-trust/extracted/pem, whether or not there
    is a proxy. *)
Theorem injectProxyAndCA_frame (containers : list Container) (proxy : option Proxy) :
  length (injectProxyAndCA containers proxy) = length containers
  ∧ Forall2
      (λ c c',
         agreeOutsideEnvAndMounts c c'
         ∧ Container_Env c `prefix_of` Container_Env c'
         ∧ Container_VolumeMounts c'
           = Container_VolumeMounts c
               ++ [mkVolumeMount "trusted-ca" "/etc/pki/ca-trust/extracted/pem" true])
      containers (injectProxyAndCA containers proxy).
Proof.
  rewrite injectProxyAndCA_fmap. split.
  - apply length_fmap.
  - apply Forall2_fmap_diag. intros c. split; [apply injectProxyAndCA_body_agree|].
    split; [|reflexivity].
    simpl. rewrite envWithProxy_app. by eexists.
Qed.

Lemma injectProxyAndCA_twice_fmap containers proxy :
  injectProxyAndCA (injectProxyAndCA containers proxy) proxy
  = (injectProxyAndCA_body proxy ∘ injectProxyAndCA_body proxy) <$> containers.
Proof. by rewrite !injectProxyAndCA_fmap, <- list_fmap_compose. Qed.

(** C2, as the code has it: one pass appends to the [Env] of every container
    the same list of proxy variables (none without a proxy, otherwise those
    of HTTP_PROXY, HTTPS_PROXY and NO_PROXY whose configured value is not
    empty, in this order); a second pass appends these variables and the
    trusted-CA mount once more, so that it gives the list of the first pass
    back only when the list is empty. *)
Theorem injectProxyAndCA_twice (containers : list Container) (proxy : option Proxy) :
  let appended := envWithProxy proxy [] in
  appended
  = match proxy with
    | None => []
    | Some p => filter (λ ev, EnvVar_Value ev ≠ "") (proxySettings p)
    end
  ∧ Forall2 (λ c c', Container_Env c' = Container_Env c ++ appended)
      containers (injectProxyAndCA containers proxy)
  ∧ Forall2
      (λ c c'',
         Container_Env c'' = Container_Env c ++ appended ++ appended
         ∧ Container_VolumeMounts c''
           = Container_VolumeMounts c ++ [trustedCAMount; trustedCAMount])
      containers (injectProxyAndCA (injectProxyAndCA containers proxy) proxy)
  ∧ (injectProxyAndCA (injectProxyAndCA containers proxy) proxy
     = injectProxyAndCA containers proxy
     ↔ containers = []).
Proof.
  intros appended. split; [|split; [|split]].
  - subst appended. destruct proxy as [p|]; [apply envWithProxy_nil_Some|reflexivity].
  - rewrite injectProxyAndCA_fmap. apply Forall2_fmap_diag. intros c. simpl.
    apply envWithProxy_app.
  - rewrite injectProxyAndCA_twice_fmap. apply Forall2_fmap_diag. intros c. simpl. split.
    + rewrite envWithProxy_app, (envWithProxy_app proxy (Container_Env c)).
      by rewrite <- app_assoc.
    + unfold mountsWithTrustedCA. by rewrite <- app_assoc.
  - split; [|by intros ->].
    destruct containers as [|c rest]; [done|].
    rewrite injectProxyAndCA_twice_fmap, injectProxyAndCA_fmap. intros Heq.
    exfalso. apply (f_equal (fmap (length ∘ Container_VolumeMounts))) in Heq.
    simpl in Heq. injection Heq as Hlen _.
    unfold mountsWithTrustedCA in Hlen. rewrite !length_app in Hlen. simpl in Hlen. lia.
Qed.

(** C2, as stated, fails: the second pass over the log sidecar, with a proxy
    that sets HTTP_PROXY and NO_PROXY, leaves both variables and the
    trusted-CA mount twice. *)
Lemma injectProxyAndCA_not_idempotent :
  Container_Env
    <$> injectProxyAndCA
          (injectProxyAndCA [createContainerIronicDeployRamdiskLogs exampleImages]
             (Some exampleProxy))
          (Some exampleProxy)
  = [ [ envValue "HTTP_PROXY" "http://proxy:3128"; envValue "NO_PROXY" ".cluster.local";
        envValue "HTTP_PROXY" "http://proxy:3128"; envValue "NO_PROXY" ".cluster.local" ] ]
  ∧ Container_VolumeMounts
      <$> injectProxyAndCA
            (injectProxyAndCA [createContainerIronicDeployRamdiskLogs exampleImages]
               (Some exampleProxy))
            (Some exampleProxy)
    = [ [ sharedVolumeMount; trustedCAMount; trustedCAMount ] ]
  ∧ injectProxyAndCA
      (injectProxyAndCA [createContainerIronicDeployRamdiskLogs exampleImages]
         (Some exampleProxy))
      (Some exampleProxy)
    ≠ injectProxyAndCA [createContainerIronicDeployRamdiskLogs exampleImages]
        (Some exampleProxy).
Proof.
  split; [reflexivity|]. split; [reflexivity|].
  intros Heq. apply (f_equal (fmap (length ∘ Container_Env))) in Heq.
  vm_compute in Heq. discriminate.
Qed.

(** ** Which containers are rendered *)

(** Case analysis on every gate [bool_decide P] of the goal, forgetting [P]. *)
Ltac destruct_gates :=
  repeat match goal with
         | |- context [bool_decide ?P] => destruct (bool_decide P)
         end.

Section Membership.
Context {pkg : PackageDecls}.

Lemma newMetal3Containers_names info :
  Container_Name <$> newMetal3Containers info
  = [ "metal3-baremetal-operator"; "metal3-mariadb"; "metal3-httpd";
      "metal3-ironic-conductor"; "ironic-inspector-ramdisk-logs";
      "metal3-ironic-api"; "ironic-deploy-ramdisk-logs"; "metal3-ironic-inspector" ]
    ++ (if bool_decide (ProvisioningIP (ProvConfig_Spec info) ≠ "")
           && bool_decide (Spec_ProvisioningNetwork (ProvConfig_Spec info)
                           ≠ ProvisioningNetworkDisabled)
        then ["metal3-static-ip-manager"] else [])
    ++ (if bool_decide (Spec_ProvisioningNetwork (ProvConfig_Spec info)
                        ≠ ProvisioningNetworkDisabled)
        then ["metal3-dnsmasq"] else []).
Proof.
  unfold newMetal3Containers. rewrite injectProxyAndCA_names.
  unfold newMetal3Containers_containers.
  destruct_gates; reflexivity.
Qed.

Lemma newMetal3InitContainers_names info :
  Container_Name <$> newMetal3InitContainers info
  = (if bool_decide (ProvisioningIP (ProvConfig_Spec info) ≠ "")
        && bool_decide (Spec_ProvisioningNetwork (ProvConfig_Spec info)
                        ≠ ProvisioningNetworkDisabled)
     then ["metal3-static-ip-set"] else [])
    ++ (if bool_decide (0 < length (getPreProvisioningOSDownloadURLs (ProvConfig_Spec info)))%nat
        then "metal3-machine-os-downloader"
             :: (if bool_decide (IsoURL (Spec_PreProvisioningOSDownloadURLs
                                           (ProvConfig_Spec info)) ≠ "")
                 then ["metal3-configure-coreos-ipa"] else [])
        else [])
    ++ (if bool_decide (ProvisioningOSDownloadURL (ProvConfig_Spec info) ≠ "")
        then ["metal3-machine-os-downloader"] else [])
    ++ (if negb (isCoreOSIPAAvailable (ProvConfig_Spec info))
        then ["metal3-ipa-downloader"] else []).
Proof.
  unfold newMetal3InitContainers. rewrite injectProxyAndCA_names.
  unfold newMetal3InitContainers_initContainers.
  destruct (isCoreOSIPAAvailable _); destruct_gates; reflexivity.
Qed.

(** Membership of a name in a list of names written out. *)
Ltac name_cases :=
  unfold hasContainer;
  rewrite ?newMetal3Containers_names, ?newMetal3InitContainers_names;
  repeat match goal with
         | |- context [isCoreOSIPAAvailable ?spec] => destruct (isCoreOSIPAAvailable spec)
         end;
  repeat case_bool_decide; simpl;
  rewrite ?elem_of_app, ?elem_of_cons, ?elem_of_nil;
  unfold staticIpConfigured;
  intuition (try discriminate; try congruence).

(** C6: the rendered container list includes metal3-dnsmasq if and only if
    the provisioning network is not Disabled. *)
Theorem dnsmasq_iff_network_enabled (info : ProvisioningInfo) :
  hasContainer "metal3-dnsmasq" (newMetal3Containers info)
  ↔ Spec_ProvisioningNetwork (ProvConfig_Spec info) ≠ ProvisioningNetworkDisabled.
Proof. name_cases. Qed.

(** C7: metal3-static-ip-set is among the init containers if and only if
    metal3-static-ip-manager is among the containers, and each of them is
    rendered exactly when a provisioning IP is configured and the
    provisioning network is not Disabled. *)
Theorem static_ip_containers_together (info : ProvisioningInfo) :
  (hasContainer "metal3-static-ip-set" (newMetal3InitContainers info)
   ↔ hasContainer "metal3-static-ip-manager" (newMetal3Containers info))
  ∧ (hasContainer "metal3-static-ip-set" (newMetal3InitContainers info)
     ↔ staticIpConfigured (ProvConfig_Spec info))
  ∧ (hasContainer "metal3-static-ip-manager" (newMetal3Containers info)
     ↔ staticIpConfigured (ProvConfig_Spec info)).
Proof.
  assert (hasContainer "metal3-static-ip-set" (newMetal3InitContainers info)
          ↔ staticIpConfigured (ProvConfig_Spec info)) as Hset.
  { name_cases. }
  assert (hasContainer "metal3-static-ip-manager" (newMetal3Containers info)
          ↔ staticIpConfigured (ProvConfig_Spec info)) as Hmanager by name_cases.
  split; [by rewrite Hset, Hmanager|]. by split.
Qed.

Lemma elem_of_injectProxyAndCA c containers proxy :
  c ∈ injectProxyAndCA containers proxy
  ↔ ∃ c0, c = injectProxyAndCA_body proxy c0 ∧ c0 ∈ containers.
Proof. rewrite injectProxyAndCA_fmap. apply list_elem_of_fmap. Qed.

Lemma length_pos_not_nil {A} (l : list A) : (0 < length l)%nat ↔ l ≠ [].
Proof. destruct l; simpl; split; (done || lia). Qed.

Lemma lookupEnv_envWithProxy_head proxy name value rest :
  lookupEnv name (envWithProxy proxy (envValue name value :: rest)) = Some value.
Proof.
  rewrite envWithProxy_app. simpl. by rewrite bool_decide_true.
Qed.

(** C8: metal3-configure-coreos-ipa is among the init containers if and only
    if the list of live-image URLs is not empty and the ISO URL is set; with
    live-image URLs and no ISO URL the machine-os-downloader is rendered and
    the configurator is not; and the downloader rendered for the live images
    has the URLs, joined by commas in their order, as the value of its
    image-URL variable. *)
Theorem coreos_ipa_configurator_gate (info : ProvisioningInfo) :
  let spec := ProvConfig_Spec info in
  let liveURLs := getPreProvisioningOSDownloadURLs spec in
  let initContainers := newMetal3InitContainers info in
  (hasContainer "metal3-configure-coreos-ipa" initContainers
   ↔ liveURLs ≠ [] ∧ IsoURL (Spec_PreProvisioningOSDownloadURLs spec) ≠ "")
  ∧ (liveURLs ≠ [] → IsoURL (Spec_PreProvisioningOSDownloadURLs spec) = "" →
     hasContainer "metal3-machine-os-downloader" initContainers
     ∧ ¬ hasContainer "metal3-configure-coreos-ipa" initContainers)
  ∧ (liveURLs ≠ [] →
     (∃ c, c ∈ initContainers
           ∧ Container_Name c = "metal3-machine-os-downloader"
           ∧ Container_Command c = ["/usr/local/bin/get-live-images.sh"])
     ∧ ∀ c, c ∈ initContainers →
            Container_Name c = "metal3-machine-os-downloader" →
            Container_Command c = ["/usr/local/bin/get-live-images.sh"] →
            lookupEnv machineImageUrl (Container_Env c) = Some (strings_Join liveURLs ",")).
Proof.
  intros spec liveURLs initContainers. subst spec liveURLs initContainers.
  split; [|split].
  - rewrite <- length_pos_not_nil. name_cases.
  - rewrite <- length_pos_not_nil. intros Hlive Hiso. split; name_cases.
  - rewrite <- length_pos_not_nil. intros Hlive. split.
    + exists (injectProxyAndCA_body (Info_Proxy info)
                (createInitContainerMachineOsDownloader info
                   (strings_Join (getPreProvisioningOSDownloadURLs (ProvConfig_Spec info)) ",")
                   true true)).
      split; [|done].
      apply elem_of_injectProxyAndCA. eexists. split; [reflexivity|].
      unfold newMetal3InitContainers_initContainers.
      rewrite (bool_decide_true _ Hlive).
      destruct (isCoreOSIPAAvailable _); destruct_gates; simpl;
        rewrite ?elem_of_app, ?elem_of_cons; auto 10.
    + intros c Hc Hname Hcommand.
      apply elem_of_injectProxyAndCA in Hc as (c0 & -> & Hc0).
      unfold newMetal3InitContainers_initContainers in Hc0.
      destruct (isCoreOSIPAAvailable _);
        repeat match type of Hc0 with
               | context [bool_decide ?P] => destruct (bool_decide P)
               end;
        simpl in Hc0; rewrite ?elem_of_app, ?elem_of_cons, ?elem_of_nil in Hc0;
        repeat match type of Hc0 with
               | _ ∨ _ => destruct Hc0 as [Hc0|Hc0]
               end;
        try contradiction; subst c0; try discriminate;
        apply lookupEnv_envWithProxy_head.
Qed.

(** C4, as the code has it: with the provisioning network Disabled, no
    provisioning IP, no live-image URL, no single download URL and the CoreOS
    IPA assets available, no init container is rendered at all, and neither
    metal3-static-ip-manager nor metal3-dnsmasq is among the containers. *)
Theorem disabled_network_without_downloads (info : ProvisioningInfo) :
  Spec_ProvisioningNetwork (ProvConfig_Spec info) = ProvisioningNetworkDisabled →
  ProvisioningIP (ProvConfig_Spec info) = "" →
  getPreProvisioningOSDownloadURLs (ProvConfig_Spec info) = [] →
  ProvisioningOSDownloadURL (ProvConfig_Spec info) = "" →
  isCoreOSIPAAvailable (ProvConfig_Spec info) = true →
  newMetal3InitContainers info = []
  ∧ ¬ hasContainer "metal3-static-ip-manager" (newMetal3Containers info)
  ∧ ¬ hasContainer "metal3-dnsmasq" (newMetal3Containers info).
Proof.
  intros Hnetwork Hip Hlive Hdownload Hipa. split; [|split].
  - unfold newMetal3InitContainers, newMetal3InitContainers_initContainers.
    rewrite Hnetwork, Hip, Hlive, Hdownload, Hipa. reflexivity.
  - name_cases.
  - name_cases.
Qed.

Lemma last_envWithMasterMacAddresses envVars macs :
  last (envWithMasterMacAddresses envVars macs)
  = Some (envValue "PROVISIONING_MACS" (strings_Join macs ",")).
Proof. unfold envWithMasterMacAddresses. apply last_snoc. Qed.

(** C5, as the code has it: before the injection pass, PROVISIONING_MACS with
    the comma-joined MAC addresses is the final environment entry of every
    container except metal3-baremetal-operator, metal3-mariadb and the two
    log sidecars; these four are always rendered, and the final entry of
    none of them is a PROVISIONING_MACS variable. *)
Theorem provisioning_macs_final_entry (info : ProvisioningInfo) :
  let containers := newMetal3Containers_containers info in
  Forall
    (λ c,
       if bool_decide (Container_Name c ∈ containersWithoutMacs)
       then EnvVar_Name <$> last (Container_Env c) ≠ Some "PROVISIONING_MACS"
       else last (Container_Env c) = Some (provisioningMacs info))
    containers
  ∧ Forall (λ name, hasContainer name containers) containersWithoutMacs.
Proof.
  intros containers. subst containers. unfold newMetal3Containers_containers.
  split.
  - destruct_gates; simpl; repeat apply Forall_cons_2; try apply Forall_nil_2;
      simpl; done.
  - unfold hasContainer, containersWithoutMacs.
    destruct_gates; simpl; repeat apply Forall_cons_2; try apply Forall_nil_2;
      rewrite ?elem_of_cons; auto 12.
Qed.

End Membership.

(** C5, as stated, fails: metal3-mariadb is rendered, and before the injection
    pass its only environment entry is the MARIADB_PASSWORD secret
    reference. *)
Lemma mariadb_without_provisioning_macs :
  createContainerMetal3Mariadb (pkg := examplePackage [] false) exampleImages
    ∈ newMetal3Containers_containers (pkg := examplePackage [] false)
        (exampleInfo "" ProvisioningNetworkManaged "" "" None)
  ∧ Container_Env (createContainerMetal3Mariadb (pkg := examplePackage [] false) exampleImages)
    = [ envFrom "MARIADB_PASSWORD" (SecretKeyRef "metal3-mariadb-password" "password") ]
  ∧ last (Container_Env
            (createContainerMetal3Mariadb (pkg := examplePackage [] false) exampleImages))
    ≠ Some (provisioningMacs (exampleInfo "" ProvisioningNetworkManaged "" "" None)).
Proof.
  split; [|split].
  - unfold newMetal3Containers_containers. simpl. rewrite !elem_of_cons. auto.
  - reflexivity.
  - discriminate.
Qed.

(** C4, as stated, fails: for this configuration the init-container list has
    no entry, not one. *)
Lemma disabled_network_no_init_container :
  let pkg := examplePackage [] true in
  let info := exampleInfo "" ProvisioningNetworkDisabled "" "" None in
  Spec_ProvisioningNetwork (ProvConfig_Spec info) = ProvisioningNetworkDisabled
  ∧ ProvisioningIP (ProvConfig_Spec info) = ""
  ∧ getPreProvisioningOSDownloadURLs (ProvConfig_Spec info) = []
  ∧ ProvisioningOSDownloadURL (ProvConfig_Spec info) = ""
  ∧ isCoreOSIPAAvailable (ProvConfig_Spec info) = true
  ∧ length (newMetal3InitContainers info) = 0%nat
  ∧ length (newMetal3InitContainers info) ≠ 1%nat.
Proof. repeat split; discriminate. Qed.

(** The theorem on C4 at work. *)
Lemma disabled_network_without_downloads_witness :
  newMetal3InitContainers (pkg := examplePackage [] true)
    (exampleInfo "" ProvisioningNetworkDisabled "" "" None) = []
  ∧ ¬ hasContainer "metal3-static-ip-manager"
        (newMetal3Containers (pkg := examplePackage [] true)
           (exampleInfo "" ProvisioningNetworkDisabled "" "" None))
  ∧ ¬ hasContainer "metal3-dnsmasq"
        (newMetal3Containers (pkg := examplePackage [] true)
           (exampleInfo "" ProvisioningNetworkDisabled "" "" None)).
Proof.
  apply (disabled_network_without_downloads (pkg := examplePackage [] true)
           (exampleInfo "" ProvisioningNetworkDisabled "" "" None));
    reflexivity.
Defined.

(** The theorem on C8 at work: two live-image URLs and no ISO URL. *)
Lemma coreos_ipa_configurator_gate_witness :
  let pkg := examplePackage ["https://mirror/live-kernel"; "https://mirror/live-rootfs.img"] true in
  let info := exampleInfo "" ProvisioningNetworkManaged "" "" None in
  (hasContainer "metal3-machine-os-downloader" (newMetal3InitContainers info)
   ∧ ¬ hasContainer "metal3-configure-coreos-ipa" (newMetal3InitContainers info))
  ∧ (∃ c, c ∈ newMetal3InitContainers info
          ∧ Container_Name c = "metal3-machine-os-downloader"
          ∧ Container_Command c = ["/usr/local/bin/get-live-images.sh"]
          ∧ lookupEnv "RHCOS_IMAGE_URL" (Container_Env c)
            = Some "https://mirror/live-kernel,https://mirror/live-rootfs.img").
Proof.
  intros pkg info.
  destruct (coreos_ipa_configurator_gate info) as (_ & Hdownloader & Hvalue).
  split.
  - apply Hdownloader; [discriminate|reflexivity].
  - destruct Hvalue as [(c & Hc & Hname & Hcommand) Hall]; [discriminate|].
    exists c. repeat split; try assumption.
    apply (Hall c Hc Hname Hcommand).
Defined.

(** ** Reconciliation *)

Section ReconcilerProperties.
Context {pkg : PackageDecls} {World : Type} {cluster : Cluster World}.

Lemma deleteCalls_snoc calls c :
  deleteCalls (calls ++ [c]) = (deleteCalls calls + (if isDelete c then 1 else 0))%nat.
Proof.
  unfold deleteCalls. rewrite filter_app, length_app.
  destruct c; reflexivity.
Qed.

Lemma callApply_calls required generation (st : State World) r st' :
  callApply required generation st = (r, st') →
  calls st' = calls st ++ [CallApplyDeployment required generation].
Proof.
  unfold callApply. destruct (ApplyDeployment _ _ _) as [r0 w].
  by intros [= _ <-].
Qed.

Lemma getMetal3DeploymentSelector_calls namespace (st : State World) r st' :
  getMetal3DeploymentSelector namespace st = (r, st') →
  calls st' = calls st ++ [CallGet namespace baremetalDeploymentName].
Proof.
  unfold getMetal3DeploymentSelector, callGet.
  destruct (Deployments_Get _ _ _) as [[existing err] w].
  destruct existing, err; by intros [= _ <-].
Qed.

Lemma DeleteMetal3Deployment_calls info (st : State World) r st' :
  DeleteMetal3Deployment info st = (r, st') →
  calls st' = calls st ++ [CallDelete (Namespace info) baremetalDeploymentName].
Proof.
  unfold DeleteMetal3Deployment, callDelete.
  destruct (Deployments_Delete _ _ _) as [err w].
  by intros [= _ <-].
Qed.

(** C1, as the code has it. Take a reconcile whose [ApplyDeployment] fails
    with [applyErr]. If fetching the selector fails, or the fetched selector
    equals the rendered one, no delete call is made and the apply error is
    returned (wrapped by "unable to apply Metal3 deployment"). If the fetch
    succeeds with a different selector, exactly one delete call is made, and
    what is returned is the error of the delete (wrapped) when it fails with
    anything but not-found, and no error otherwise. *)
Theorem EnsureMetal3Deployment_apply_failure (info : ProvisioningInfo) (st : State World)
    refs deployment updated applyErr st1 selector get_err st2 delete_err st3 :
  SetControllerReference (Deployment_ObjectMeta (newMetal3Deployment info)) = inr refs →
  callApply (setOwnerReferences refs (newMetal3Deployment info))
    (ExpectedDeploymentGeneration (newMetal3Deployment info) (Generations st))
    (rolloutStarted st)
  = ((deployment, updated, Some applyErr), st1) →
  getMetal3DeploymentSelector (Namespace info) st1 = ((selector, get_err), st2) →
  DeleteMetal3Deployment info st2 = (delete_err, st3) →
  (get_err ≠ None ∨ selector = renderedSelector info →
   EnsureMetal3Deployment info st = ((updated, Some (applyFailure applyErr)), st2)
   ∧ deleteCalls (calls st2) = deleteCalls (calls st))
  ∧ (get_err = None ∧ selector ≠ renderedSelector info →
     (EnsureMetal3Deployment info st).1.2 = deleteFailure <$> delete_err
     ∧ (EnsureMetal3Deployment info st).1.2 ≠ Some (applyFailure applyErr)
     ∧ deleteCalls (calls (EnsureMetal3Deployment info st).2) = S (deleteCalls (calls st))).
Proof.
  intros Href Happly Hget Hdelete.
  pose proof (callApply_calls _ _ _ _ _ Happly) as Hcalls1.
  pose proof (getMetal3DeploymentSelector_calls _ _ _ _ Hget) as Hcalls2.
  pose proof (DeleteMetal3Deployment_calls _ _ _ _ Hdelete) as Hcalls3.
  unfold EnsureMetal3Deployment. rewrite Href.
  fold (rolloutStarted st). rewrite Happly, Hget.
  assert (Selector (Deployment_Spec (setOwnerReferences refs (newMetal3Deployment info)))
          = renderedSelector info) as -> by reflexivity.
  unfold DeepEqual. split.
  - intros Hkeep.
    assert (bool_decide (get_err ≠ None)
            || bool_decide (selector = renderedSelector info) = true) as ->.
    { destruct Hkeep as [Herr| ->].
      - by rewrite (bool_decide_true _ Herr).
      - rewrite (bool_decide_true (renderedSelector info = _)) by done.
        by rewrite orb_true_r. }
    split; [reflexivity|].
    rewrite Hcalls2, Hcalls1. simpl. rewrite !deleteCalls_snoc. simpl. lia.
  - intros [Hfetched Hdiffers].
    assert (bool_decide (get_err ≠ None)
            || bool_decide (selector = renderedSelector info) = false) as ->.
    { rewrite bool_decide_false by (by intros []).
      by rewrite bool_decide_false. }
    rewrite Hdelete. unfold EnsureMetal3Deployment_finish.
    destruct delete_err as [e|], updated; simpl;
      (split; [reflexivity|]); (split; [discriminate|]);
      rewrite Hcalls3, Hcalls2, Hcalls1; simpl; rewrite !deleteCalls_snoc; simpl; lia.
Qed.

Lemma getDeploymentCondition_first_true conditions cond :
  firstTrueCondition conditions cond →
  getDeploymentCondition_loop conditions = Condition_Type cond.
Proof.
  intros (before & after & -> & Hbefore & Htrue).
  induction Hbefore as [|c before Hc _ IH]; simpl.
  - by rewrite bool_decide_true.
  - by rewrite bool_decide_false.
Qed.

Lemma getDeploymentCondition_none_true conditions :
  Forall (λ c, Condition_Status c ≠ ConditionTrue) conditions →
  getDeploymentCondition_loop conditions = DeploymentProgressing.
Proof.
  induction 1 as [|c rest Hc _ IH]; simpl; [done|].
  by rewrite bool_decide_false.
Qed.

(** [time.Sub] is the difference of the instants wherever it fits a
    [Duration]. *)
Lemma time_Sub_exact t u :
  minDuration ≤ t - u ≤ maxDuration → time_Sub t u = t - u.
Proof.
  intros [Hlo Hhi]. unfold time_Sub.
  destruct (Z.ltb_spec (t - u) minDuration); [lia|].
  destruct (Z.ltb_spec maxDuration (t - u)); [lia|done].
Qed.

(** C3, as the code has it. When the deployment is fetched and its first
    true condition is Progressing, the reported state is ReplicaFailure
    exactly when the time elapsed since the rollout start is at least the
    timeout of 5 minutes, and Progressing otherwise: ReplicaFailure for
    every elapsed time above 5 minutes, and also for 5 minutes sharp;
    Progressing for 4 minutes 59 seconds. *)
Theorem GetDeploymentState_progressing_timeout (targetNamespace : string) (st : State World)
    existing w cond :
  Deployments_Get targetNamespace baremetalDeploymentName (world st)
  = ((Some existing, None), w) →
  firstTrueCondition (Conditions (Deployment_Status existing)) cond →
  Condition_Type cond = DeploymentProgressing →
  let elapsed := time_Since w (deploymentRolloutStartTime st) in
  let reported := (GetDeploymentState targetNamespace st).1 in
  reported
  = (if bool_decide (5 * time_Minute ≤ elapsed)
     then DeploymentReplicaFailure else DeploymentProgressing, None)
  ∧ (5 * time_Minute < elapsed → reported = (DeploymentReplicaFailure, None))
  ∧ (elapsed = 5 * time_Minute → reported = (DeploymentReplicaFailure, None))
  ∧ (elapsed = 4 * time_Minute + 59 * time_Second → reported = (DeploymentProgressing, None)).
Proof.
  intros Hget Hfirst Hprogressing elapsed reported.
  assert (reported
          = (if bool_decide (5 * time_Minute ≤ elapsed)
             then DeploymentReplicaFailure else DeploymentProgressing, None)) as Hreported.
  { subst reported elapsed. unfold GetDeploymentState, callGet. rewrite Hget. simpl.
    unfold getDeploymentCondition.
    rewrite (getDeploymentCondition_first_true _ _ Hfirst), Hprogressing.
    rewrite (bool_decide_true (DeploymentProgressing = DeploymentProgressing)) by done.
    simpl. fold deploymentRolloutTimeout.
    by destruct (bool_decide (deploymentRolloutTimeout ≤ _)). }
  split; [exact Hreported|].
  rewrite Hreported. clear Hreported. unfold time_Minute, time_Second.
  split; [|split]; intros Helapsed; case_bool_decide; (done || lia).
Qed.

(** C9: when the get fails, or returns no deployment, the reported state is
    ReplicaFailure and the error is the error of the get, whatever the
    conditions of a returned deployment, the clock and the rollout start
    are; the get is the only call made. *)
Theorem GetDeploymentState_get_failure (targetNamespace : string) (st : State World)
    existing err w :
  Deployments_Get targetNamespace baremetalDeploymentName (world st)
  = ((existing, err), w) →
  err ≠ None ∨ existing = None →
  GetDeploymentState targetNamespace st
  = ((DeploymentReplicaFailure, err),
     mkState w (deploymentRolloutStartTime st) (Generations st)
       (calls st ++ [CallGet targetNamespace baremetalDeploymentName])).
Proof.
  intros Hget Hfailed. unfold GetDeploymentState, callGet. rewrite Hget.
  destruct err as [e|], existing as [d|]; try reflexivity.
  by destruct Hfailed.
Qed.

End ReconcilerProperties.

(** ** The theorems at work on the scripted API server *)

(** C1, as stated, fails: the apply is refused, the stored selector differs
    from the rendered one, the one delete succeeds, and the reconcile returns
    no error at all. *)
Lemma EnsureMetal3Deployment_swallows_apply_error :
  let pkg := examplePackage [] false in
  let info := exampleInfo "" ProvisioningNetworkManaged "" "" None in
  let run := EnsureMetal3Deployment (cluster := scriptedCluster) info (refusedApply None None) in
  Selector (Deployment_Spec (olderDeployment [])) ≠ renderedSelector info
  ∧ run.1 = (false, None)
  ∧ deleteCalls (calls run.2) = 1%nat
  ∧ scripted_stored (world run.2) = None.
Proof.
  intros pkg info run. split; [|split; [|split]].
  - vm_compute. discriminate.
  - vm_compute. reflexivity.
  - vm_compute. reflexivity.
  - vm_compute. reflexivity.
Qed.

(** The theorem on C1 at work: with a failing get no delete is called and the
    apply error comes back; with the older selector fetched, one delete is
    called and, the delete succeeding, no error comes back. *)
Lemma EnsureMetal3Deployment_apply_failure_witness :
  let pkg := examplePackage [] false in
  let info := exampleInfo "" ProvisioningNetworkManaged "" "" None in
  let failedGet := OtherError "connection refused" in
  let kept := EnsureMetal3Deployment (cluster := scriptedCluster) info
                (refusedApply (Some failedGet) None) in
  let deleted := EnsureMetal3Deployment (cluster := scriptedCluster) info
                   (refusedApply None None) in
  (kept.1 = (false, Some (applyFailure immutableSelector))
   ∧ deleteCalls (calls kept.2) = 0%nat)
  ∧ (deleted.1.2 = None
     ∧ deleteCalls (calls deleted.2) = 1%nat).
Proof.
  intros pkg info failedGet kept deleted. split.
  - edestruct (EnsureMetal3Deployment_apply_failure (cluster := scriptedCluster) info
                 (refusedApply (Some failedGet) None)) as [Hkeep _];
      [reflexivity|reflexivity|reflexivity|reflexivity|].
    destruct Hkeep as [Hrun Hcalls]; [left; discriminate|].
    subst kept. rewrite Hrun. split; [reflexivity|exact Hcalls].
  - edestruct (EnsureMetal3Deployment_apply_failure (cluster := scriptedCluster) info
                 (refusedApply None None)) as [_ Hdelete];
      [reflexivity|reflexivity|reflexivity|reflexivity|].
    destruct Hdelete as (Herr & _ & Hcalls); [split; [reflexivity|discriminate]|].
    subst deleted. split; [exact Herr|exact Hcalls].
Defined.

Lemma progressingConditions_first_true :
  firstTrueCondition progressingConditions
    (mkDeploymentCondition DeploymentProgressing ConditionTrue).
Proof.
  exists [mkDeploymentCondition DeploymentAvailable ConditionFalse],
    [mkDeploymentCondition DeploymentReplicaFailure ConditionTrue].
  split; [reflexivity|]. split; [|reflexivity].
  apply Forall_cons_2; [discriminate|apply Forall_nil_2].
Defined.

(** C3, as stated, fails at the boundary: 5 minutes sharp do not exceed the
    timeout, and the state is overridden all the same. *)
Lemma GetDeploymentState_at_five_minutes :
  let st := statusQuery (5 * time_Minute) progressingConditions None in
  time_Since (cluster := scriptedCluster) (world st) (deploymentRolloutStartTime st)
  = 5 * time_Minute
  ∧ ¬ (5 * time_Minute
       < time_Since (cluster := scriptedCluster) (world st) (deploymentRolloutStartTime st))
  ∧ firstTrueCondition
      (Conditions (Deployment_Status (olderDeployment progressingConditions)))
      (mkDeploymentCondition DeploymentProgressing ConditionTrue)
  ∧ (GetDeploymentState (cluster := scriptedCluster) "openshift-machine-api" st).1
    = (DeploymentReplicaFailure, None).
Proof.
  intros st. split; [reflexivity|]. split; [|split].
  - vm_compute. discriminate.
  - exact progressingConditions_first_true.
  - reflexivity.
Qed.

(** The theorem on C3 at work: 4 minutes 59 seconds after the rollout start,
    and one nanosecond past 5 minutes. *)
Lemma GetDeploymentState_progressing_timeout_witness :
  (GetDeploymentState (cluster := scriptedCluster) "openshift-machine-api"
     (statusQuery (4 * time_Minute + 59 * time_Second) progressingConditions None)).1
  = (DeploymentProgressing, None)
  ∧ (GetDeploymentState (cluster := scriptedCluster) "openshift-machine-api"
       (statusQuery (5 * time_Minute + 1) progressingConditions None)).1
    = (DeploymentReplicaFailure, None).
Proof.
  split.
  - edestruct (GetDeploymentState_progressing_timeout (cluster := scriptedCluster)
                 "openshift-machine-api"
                 (statusQuery (4 * time_Minute + 59 * time_Second) progressingConditions None))
      as (_ & _ & _ & Hbelow);
      [reflexivity|exact progressingConditions_first_true|reflexivity|].
    apply Hbelow. reflexivity.
  - edestruct (GetDeploymentState_progressing_timeout (cluster := scriptedCluster)
                 "openshift-machine-api"
                 (statusQuery (5 * time_Minute + 1) progressingConditions None))
      as (_ & Habove & _ & _);
      [reflexivity|exact progressingConditions_first_true|reflexivity|].
    apply Habove. reflexivity.
Defined.

(** The theorem on C9 at work: the get is refused while the stored deployment
    reports Progressing. *)
Lemma GetDeploymentState_get_failure_witness :
  GetDeploymentState (cluster := scriptedCluster) "openshift-machine-api"
    (statusQuery 0 progressingConditions (Some (OtherError "connection refused")))
  = ((DeploymentReplicaFailure, Some (OtherError "connection refused")),
     mkState
       (mkScripted 1000 (Some (olderDeployment progressingConditions)) None
          (Some (OtherError "connection refused")) None)
       1000 [] [CallGet "openshift-machine-api" baremetalDeploymentName]).
Proof.
  rewrite (GetDeploymentState_get_failure (cluster := scriptedCluster)
             "openshift-machine-api"
             (statusQuery 0 progressingConditions (Some (OtherError "connection refused")))
             None (Some (OtherError "connection refused"))
             (mkScripted 1000 (Some (olderDeployment progressingConditions)) None
                (Some (OtherError "connection refused")) None)).
  - reflexivity.
  - reflexivity.
  - left. discriminate.
Defined.

(** * Further properties *)

(** ** What holds of every rendered container *)

Section ConstructorCases.
Context {pkg : PackageDecls}.

Lemma initContainers_cases info c :
  c ∈ newMetal3InitContainers_initContainers info →
  c = createInitContainerStaticIpSet (Info_Images info) (ProvConfig_Spec info)
  ∨ c = createInitContainerMachineOsDownloader info
          (strings_Join (getPreProvisioningOSDownloadURLs (ProvConfig_Spec info)) ",")
          true true
  ∨ c = createInitContainerConfigureCoreOSIPA info
  ∨ c = createInitContainerMachineOsDownloader info
          (ProvisioningOSDownloadURL (ProvConfig_Spec info)) false true
  ∨ c = createInitContainerIpaDownloader (Info_Images info).
Proof.
  unfold newMetal3InitContainers_initContainers.
  destruct (isCoreOSIPAAvailable _); destruct_gates; simpl;
    rewrite ?elem_of_app, ?elem_of_cons, ?elem_of_nil; intuition.
Qed.

Lemma containers_cases info c :
  c ∈ newMetal3Containers_containers info →
  c ∈ [ createContainerMetal3BaremetalOperator (Info_Images info) (ProvConfig_Spec info);
        createContainerMetal3Mariadb (Info_Images info);
        createContainerMetal3Httpd (Info_Images info) (ProvConfig_Spec info)
          (MasterMacAddresses info) (SSHKey info);
        createContainerMetal3IronicConductor (Info_Images info) (ProvConfig_Spec info)
          (MasterMacAddresses info) (SSHKey info);
        createContainerIronicInspectorRamdiskLogs (Info_Images info);
        createContainerMetal3IronicApi (Info_Images info) (ProvConfig_Spec info)
          (MasterMacAddresses info);
        createContainerIronicDeployRamdiskLogs (Info_Images info);
        createContainerMetal3IronicInspector (Info_Images info) (ProvConfig_Spec info)
          (MasterMacAddresses info);
        createContainerMetal3StaticIpManager (Info_Images info) (ProvConfig_Spec info)
          (MasterMacAddresses info);
        createContainerMetal3Dnsmasq (Info_Images info) (ProvConfig_Spec info)
          (MasterMacAddresses info) ].
Proof.
  unfold newMetal3Containers_containers.
  destruct_gates; simpl; rewrite ?elem_of_app, ?elem_of_cons, ?elem_of_nil; intuition.
Qed.

(** A property of containers that the injection pass keeps holds of every
    rendered container as soon as it holds of what the constructors build. *)
Lemma renderedContainers_ind (P : Container → Prop) info :
  (∀ c, P c → P (injectProxyAndCA_body (Info_Proxy info) c)) →
  (∀ c, c ∈ newMetal3InitContainers_initContainers info → P c) →
  (∀ c, c ∈ newMetal3Containers_containers info → P c) →
  Forall P (renderedContainers info).
Proof.
  intros Hbody Hinit Hcontainers.
  unfold renderedContainers, newMetal3InitContainers, newMetal3Containers.
  rewrite !injectProxyAndCA_fmap. apply Forall_app.
  split; apply Forall_fmap, Forall_forall; intros c Hc; apply Hbody; auto.
Qed.

End ConstructorCases.

(** Splits a goal about a member of one of the two lists into one goal for
    each constructor. *)
Ltac each_constructor c Hc :=
  first [ apply initContainers_cases in Hc | apply containers_cases in Hc ];
  rewrite ?elem_of_cons, ?elem_of_nil in Hc;
  repeat match type of Hc with
         | _ ∨ _ => destruct Hc as [Hc|Hc]
         end;
  try contradiction; subst c.

Section EveryContainer.
Context {pkg : PackageDecls}.

Lemma valueOrSource_buildEnvVar name config : valueOrSource (buildEnvVar name config).
Proof.
  unfold valueOrSource, buildEnvVar.
  destruct (getMetal3DeploymentConfig name config); [by right|].
  destruct (_ && _); simpl; auto.
Qed.

Lemma valueOrSource_setIronicExternalIp name config :
  valueOrSource (setIronicExternalIp name config).
Proof. unfold valueOrSource, setIronicExternalIp. destruct (_ && _); simpl; auto. Qed.

Lemma valueOrSource_getWatchNamespace config : valueOrSource (getWatchNamespace config).
Proof. unfold valueOrSource, getWatchNamespace. destruct (WatchAllNamespaces _); simpl; auto. Qed.

Lemma valueOrSource_envValue name value : valueOrSource (envValue name value).
Proof. by right. Qed.

Lemma valueOrSource_envFrom name source : valueOrSource (envFrom name source).
Proof. by left. Qed.

Lemma valueOrSource_envWithProxy proxy envVars :
  Forall valueOrSource envVars → Forall valueOrSource (envWithProxy proxy envVars).
Proof.
  intros Henv. rewrite envWithProxy_app. apply Forall_app. split; [done|].
  destruct proxy as [p|]; simpl; [|constructor].
  destruct_gates; simpl; repeat first [apply Forall_nil_2 | apply Forall_cons_2]; by right.
Qed.

(** X1: no environment variable of a rendered container, init container or
    not, carries both a literal value and a source of its value, proxy
    variables included. *)
Theorem rendered_env_value_or_source (info : ProvisioningInfo) :
  Forall (λ c, Forall valueOrSource (Container_Env c)) (renderedContainers info).
Proof.
  pose proof valueOrSource_buildEnvVar. pose proof valueOrSource_setIronicExternalIp.
  pose proof valueOrSource_getWatchNamespace. pose proof valueOrSource_envValue.
  pose proof valueOrSource_envFrom.
  apply renderedContainers_ind.
  - intros c Hc. simpl. by apply valueOrSource_envWithProxy.
  - intros c Hc. each_constructor c Hc; simpl;
      unfold envWithMasterMacAddresses, mariadbPassword, pullSecret, buildSSHKeyEnvVar,
        setIronicHtpasswdHash; simpl;
      repeat first [apply Forall_nil_2 | apply Forall_cons_2]; auto.
  - intros c Hc. each_constructor c Hc; simpl;
      unfold envWithMasterMacAddresses, mariadbPassword, pullSecret, buildSSHKeyEnvVar,
        setIronicHtpasswdHash; simpl;
      repeat first [apply Forall_nil_2 | apply Forall_cons_2]; auto.
Qed.

(** X2: every volume mount of every rendered container names a volume of
    [metal3Volumes], the trusted-CA mount of the injection pass included,
    provided the image-cache mount names the image-cache volume. *)
Theorem rendered_mounts_name_declared_volumes (info : ProvisioningInfo) :
  VolumeMount_Name imageVolumeMount = Volume_Name imageVolume →
  Forall
    (λ c, Forall (λ m, VolumeMount_Name m ∈ Volume_Name <$> metal3Volumes)
            (Container_VolumeMounts c))
    (renderedContainers info).
Proof.
  intros Himage.
  assert (∀ m, VolumeMount_Name m
               ∈ [ baremetalSharedVolume; Volume_Name imageVolume; ironicCredentialsVolume;
                   ironicrpcCredentialsVolume; inspectorCredentialsVolume; "trusted-ca";
                   ironicTlsVolume; inspectorTlsVolume ] →
               VolumeMount_Name m ∈ Volume_Name <$> metal3Volumes) as Hnames by done.
  apply renderedContainers_ind.
  - intros c Hc. simpl. unfold mountsWithTrustedCA. apply Forall_app. split; [done|].
    apply Forall_singleton, Hnames. simpl. rewrite !elem_of_cons. auto 10.
  - intros c Hc. each_constructor c Hc; simpl;
      repeat first [apply Forall_nil_2 | apply Forall_cons_2];
      apply Hnames; rewrite ?Himage; simpl; rewrite !elem_of_cons; auto 10.
  - intros c Hc. each_constructor c Hc; simpl;
      repeat first [apply Forall_nil_2 | apply Forall_cons_2];
      apply Hnames; rewrite ?Himage; simpl; rewrite !elem_of_cons; auto 10.
Qed.

(** X3: every port a rendered container declares has its host port equal to
    its container port, and the pod that holds the containers runs on the
    host network. *)
Theorem rendered_ports_on_host (info : ProvisioningInfo) (labels : gmap string string) :
  Forall
    (λ c, Forall (λ p, ContainerPort_HostPort p = ContainerPort_ContainerPort p)
            (Container_Ports c))
    (renderedContainers info)
  ∧ HostNetwork (Template_Spec (newMetal3PodTemplateSpec info labels)) = true
  ∧ InitContainers (Template_Spec (newMetal3PodTemplateSpec info labels))
      ++ Containers (Template_Spec (newMetal3PodTemplateSpec info labels))
    = renderedContainers info.
Proof.
  split; [|by split].
  apply renderedContainers_ind.
  - intros c Hc. exact Hc.
  - intros c Hc. each_constructor c Hc; simpl;
      by repeat first [apply Forall_nil_2 | apply Forall_cons_2].
  - intros c Hc. each_constructor c Hc; simpl;
      by repeat first [apply Forall_nil_2 | apply Forall_cons_2].
Qed.

Lemma dom_requests cpu memory :
  dom (Requests (requests cpu memory)) = ({[ ResourceCPU; ResourceMemory ]} : gset string).
Proof. unfold requests. simpl. rewrite dom_insert_L, dom_singleton_L. done. Qed.

(** X4: every rendered container is pulled with the policy IfNotPresent and
    requests exactly two resources, cpu and memory. *)
Theorem rendered_pull_policy_and_requests (info : ProvisioningInfo) :
  Forall
    (λ c, Container_ImagePullPolicy c = "IfNotPresent"
          ∧ dom (Requests (Container_Resources c))
            = ({[ ResourceCPU; ResourceMemory ]} : gset string))
    (renderedContainers info).
Proof.
  apply renderedContainers_ind.
  - intros c Hc. exact Hc.
  - intros c Hc. each_constructor c Hc; simpl; (split; [done|apply dom_requests]).
  - intros c Hc. each_constructor c Hc; simpl; (split; [done|apply dom_requests]).
Qed.

(** X5: every rendered container runs privileged, except
    metal3-baremetal-operator, which has no security context. *)
Theorem rendered_privileged_but_operator (info : ProvisioningInfo) :
  Forall
    (λ c, Container_SecurityContext c
          = if bool_decide (Container_Name c = "metal3-baremetal-operator")
            then None
            else Some (mkSecurityContext (Some true)))
    (renderedContainers info).
Proof.
  apply renderedContainers_ind.
  - intros c Hc. exact Hc.
  - intros c Hc. by each_constructor c Hc.
  - intros c Hc. by each_constructor c Hc.
Qed.

End EveryContainer.

(** ** Names and order of the rendered containers *)

Section RenderedNames.
Context {pkg : PackageDecls}.

(** Rewrites the two lists of names and takes every gate both ways. *)
Ltac names_by_cases :=
  rewrite ?newMetal3Containers_names, ?newMetal3InitContainers_names;
  repeat match goal with
         | |- context [isCoreOSIPAAvailable ?spec] =>
             let Hipa := fresh "Hipa" in destruct (isCoreOSIPAAvailable spec) eqn:Hipa
         end;
  repeat case_bool_decide; simpl.

(** Decides a closed goal about lists of names. *)
Ltac decide_names := compute_done.

(** Proves that a list written out is a sublist of another, taking each
    element at its first occurrence. *)
Ltac sublist_greedy :=
  repeat first [ apply sublist_nil_l | apply sublist_skip | apply sublist_cons ].

(** X6: the names of the rendered containers are pairwise distinct, and no
    init container has the name of a container. *)
Theorem container_names_distinct (info : ProvisioningInfo) :
  NoDup (Container_Name <$> newMetal3Containers info)
  ∧ Forall (λ name, name ∉ Container_Name <$> newMetal3Containers info)
      (Container_Name <$> newMetal3InitContainers info).
Proof.
  split.
  - names_by_cases; decide_names.
  - names_by_cases; decide_names.
Qed.

(** X7: two init containers have the same name exactly when both live-image
    URLs and the single download URL are configured: both downloads are then
    rendered as metal3-machine-os-downloader. *)
Theorem init_container_names_distinct_iff (info : ProvisioningInfo) :
  NoDup (Container_Name <$> newMetal3InitContainers info)
  ↔ ¬ (getPreProvisioningOSDownloadURLs (ProvConfig_Spec info) ≠ []
       ∧ ProvisioningOSDownloadURL (ProvConfig_Spec info) ≠ "").
Proof.
  rewrite <- length_pos_not_nil.
  names_by_cases;
    (split;
     [ intros Hnodup [? ?]; try contradiction;
       revert Hnodup; compute_done
     | intros Hnot; try (exfalso; apply Hnot; by split); decide_names ]).
Qed.

(** X8: the init containers come in the order static-ip-set, live
    downloader, configurator, single downloader, IPA downloader; the
    containers are the eight that are always rendered, in their order,
    followed by static-ip-manager and dnsmasq where these are rendered. *)
Theorem rendered_order (info : ProvisioningInfo) :
  Container_Name <$> newMetal3InitContainers info
    `sublist_of` [ "metal3-static-ip-set"; "metal3-machine-os-downloader";
                   "metal3-configure-coreos-ipa"; "metal3-machine-os-downloader";
                   "metal3-ipa-downloader" ]
  ∧ take 8 (Container_Name <$> newMetal3Containers info)
    = [ "metal3-baremetal-operator"; "metal3-mariadb"; "metal3-httpd";
        "metal3-ironic-conductor"; "ironic-inspector-ramdisk-logs";
        "metal3-ironic-api"; "ironic-deploy-ramdisk-logs"; "metal3-ironic-inspector" ]
  ∧ drop 8 (Container_Name <$> newMetal3Containers info)
    `sublist_of` [ "metal3-static-ip-manager"; "metal3-dnsmasq" ].
Proof.
  split; [|split].
  - names_by_cases; sublist_greedy.
  - names_by_cases; reflexivity.
  - names_by_cases; sublist_greedy.
Qed.

(** X9: metal3-ipa-downloader is rendered exactly when the CoreOS IPA assets
    are not available, and it is then the last init container. *)
Theorem ipa_downloader_gate (info : ProvisioningInfo) :
  (hasContainer "metal3-ipa-downloader" (newMetal3InitContainers info)
   ↔ isCoreOSIPAAvailable (ProvConfig_Spec info) = false)
  ∧ (last (Container_Name <$> newMetal3InitContainers info) = Some "metal3-ipa-downloader"
     ↔ isCoreOSIPAAvailable (ProvConfig_Spec info) = false).
Proof.
  unfold hasContainer. split.
  - names_by_cases; rewrite ?elem_of_cons, ?elem_of_nil;
      intuition (try discriminate; try congruence).
  - names_by_cases; intuition (try discriminate; try congruence).
Qed.

End RenderedNames.

(** ** The downloads *)

Section Downloads.
Context {pkg : PackageDecls}.

Lemma elem_of_newMetal3InitContainers info c :
  c ∈ newMetal3InitContainers info
  ↔ ∃ c0, c = injectProxyAndCA_body (Info_Proxy info) c0
          ∧ c0 ∈ newMetal3InitContainers_initContainers info.
Proof. apply elem_of_injectProxyAndCA. Qed.

(** X10: an init container that runs get-resource.sh under the name
    metal3-machine-os-downloader is rendered exactly when the single download
    URL is configured, and its image-URL variable then holds that URL. *)
Theorem single_download_gate (info : ProvisioningInfo) :
  (ProvisioningOSDownloadURL (ProvConfig_Spec info) ≠ ""
   ↔ ∃ c, c ∈ newMetal3InitContainers info
          ∧ Container_Name c = "metal3-machine-os-downloader"
          ∧ Container_Command c = ["/usr/local/bin/get-resource.sh"])
  ∧ Forall
      (λ c, Container_Name c = "metal3-machine-os-downloader" →
            Container_Command c = ["/usr/local/bin/get-resource.sh"] →
            lookupEnv machineImageUrl (Container_Env c)
            = Some (ProvisioningOSDownloadURL (ProvConfig_Spec info)))
      (newMetal3InitContainers info).
Proof.
  split; [split|].
  - intros Hurl.
    exists (injectProxyAndCA_body (Info_Proxy info)
              (createInitContainerMachineOsDownloader info
                 (ProvisioningOSDownloadURL (ProvConfig_Spec info)) false true)).
    split; [|done].
    apply elem_of_newMetal3InitContainers. eexists. split; [reflexivity|].
    unfold newMetal3InitContainers_initContainers.
    rewrite (bool_decide_true _ Hurl).
    destruct (isCoreOSIPAAvailable _); destruct_gates; simpl;
      rewrite ?elem_of_app, ?elem_of_cons; auto 10.
  - intros (c & Hc & Hname & Hcommand).
    apply elem_of_newMetal3InitContainers in Hc as (c0 & -> & Hc0).
    unfold newMetal3InitContainers_initContainers in Hc0.
    destruct (decide (ProvisioningOSDownloadURL (ProvConfig_Spec info) = ""))
      as [Hempty|]; [|done].
    exfalso. rewrite (bool_decide_false (ProvisioningOSDownloadURL _ ≠ ""))in Hc0
      by (by intros []).
    destruct (isCoreOSIPAAvailable _);
      repeat match type of Hc0 with
             | context [bool_decide ?P] => destruct (bool_decide P)
             end;
      simpl in Hc0; rewrite ?elem_of_app, ?elem_of_cons, ?elem_of_nil in Hc0;
      repeat match type of Hc0 with
             | _ ∨ _ => destruct Hc0 as [Hc0|Hc0]
             end;
      try contradiction; subst c0; discriminate.
  - apply Forall_forall. intros c Hc Hname Hcommand.
    apply elem_of_newMetal3InitContainers in Hc as (c0 & -> & Hc0).
    each_constructor c0 Hc0; try discriminate.
    apply lookupEnv_envWithProxy_head.
Qed.

(** X11: both downloads, of the live images and of the single image, are
    given IP options as their second variable: ip=dhcp on an IPv4 network
    stack, ip=dhcp6 on an IPv6 one, and the empty string on a dual one. *)
Theorem downloaders_ip_options (info : ProvisioningInfo) :
  Forall
    (λ c, Container_Name c = "metal3-machine-os-downloader" →
          Container_Env c !! 1%nat
          = Some (envValue ipOptions
                    match NetworkStack info with
                    | NetworkStackV4 => "ip=dhcp"
                    | NetworkStackV6 => "ip=dhcp6"
                    | NetworkStackDual => ""
                    end))
    (newMetal3InitContainers info).
Proof.
  apply Forall_forall. intros c Hc Hname.
  apply elem_of_newMetal3InitContainers in Hc as (c0 & -> & Hc0).
  each_constructor c0 Hc0; try discriminate;
    simpl; rewrite envWithProxy_app; reflexivity.
Qed.

End Downloads.

(** ** Environment variables and the injection pass, once more *)

Section Environment.
Context {pkg : PackageDecls}.

(** X12: [buildEnvVar] keeps the name it is given; it refers to the IP of the
    host exactly when the configuration has no value for the name, the name
    is that of the provisioning IP and the provisioning network is Disabled,
    and it refers to nothing else; [setIronicExternalIp] refers to the IP of
    the host exactly when the network is not Disabled and virtual media go
    over the external network. So for no configuration do the provisioning
    IP and the external IP both refer to the IP of the host. *)
Theorem host_ip_references (name external : string) (config : ProvisioningSpec) :
  EnvVar_Name (buildEnvVar name config) = name
  ∧ (EnvVar_ValueFrom (buildEnvVar name config) = Some hostIP
     ↔ getMetal3DeploymentConfig name config = None
       ∧ name = provisioningIP
       ∧ Spec_ProvisioningNetwork config = ProvisioningNetworkDisabled)
  ∧ (EnvVar_ValueFrom (buildEnvVar name config) ≠ Some hostIP
     ↔ EnvVar_ValueFrom (buildEnvVar name config) = None)
  ∧ (EnvVar_ValueFrom (setIronicExternalIp external config) = Some hostIP
     ↔ Spec_ProvisioningNetwork config ≠ ProvisioningNetworkDisabled
       ∧ VirtualMediaViaExternalNetwork config = true)
  ∧ ¬ (EnvVar_ValueFrom (buildEnvVar name config) = Some hostIP
       ∧ EnvVar_ValueFrom (setIronicExternalIp external config) = Some hostIP).
Proof.
  unfold buildEnvVar, setIronicExternalIp, hostIP.
  destruct (getMetal3DeploymentConfig name config) as [value|],
    (VirtualMediaViaExternalNetwork config);
    repeat case_bool_decide; simpl;
    intuition (first [discriminate | congruence | idtac]).
Qed.

(** X13: [envWithProxy] gives the variables back unchanged exactly when there
    is no proxy or the three settings of the proxy are all empty; it appends
    at most three variables, and their names are pairwise distinct. *)
Theorem envWithProxy_unchanged_iff (proxy : option Proxy) (envVars : list EnvVar) :
  (envWithProxy proxy envVars = envVars
   ↔ match proxy with
     | None => True
     | Some p => HTTPProxy p = "" ∧ HTTPSProxy p = "" ∧ NoProxy p = ""
     end)
  ∧ (length envVars ≤ length (envWithProxy proxy envVars) ≤ length envVars + 3)%nat
  ∧ NoDup (EnvVar_Name <$> envWithProxy proxy []).
Proof.
  rewrite envWithProxy_app, length_app.
  destruct proxy as [p|]; simpl.
  - repeat case_bool_decide; simpl;
      (split; [|split; [lia|compute_done]]);
      (split;
       [ intros Heq; apply (f_equal length) in Heq; rewrite length_app in Heq;
         simpl in Heq; try lia;
         repeat match goal with
                | H : ¬ (_ ≠ _) |- _ => apply dec_stable in H
                end; done
       | intros (? & ? & ?); rewrite ?app_nil_r; congruence ]).
  - rewrite app_nil_r. split; [done|]. split; [lia|constructor].
Qed.

(** X14: the injection pass works container by container: the pass over two
    lists one after the other is the pass over the first followed by the pass
    over the second, and the pass over the empty list is empty. *)
Theorem injectProxyAndCA_app (containers more : list Container) (proxy : option Proxy) :
  injectProxyAndCA (containers ++ more) proxy
  = injectProxyAndCA containers proxy ++ injectProxyAndCA more proxy
  ∧ (injectProxyAndCA containers proxy = [] ↔ containers = []).
Proof.
  rewrite !injectProxyAndCA_fmap. split; [apply fmap_app|].
  destruct containers; [done|]. simpl. split; discriminate.
Qed.

End Environment.

(** ** Secrets *)

Section Secrets.
Context {pkg : PackageDecls}.

Lemma buildEnvVar_name name config : EnvVar_Name (buildEnvVar name config) = name.
Proof.
  unfold buildEnvVar. destruct (getMetal3DeploymentConfig name config); [done|].
  by destruct (_ && _).
Qed.

Lemma setIronicExternalIp_name name config :
  EnvVar_Name (setIronicExternalIp name config) = name.
Proof. unfold setIronicExternalIp. by destruct (_ && _). Qed.

Lemma getWatchNamespace_name config :
  EnvVar_Name (getWatchNamespace config) = "WATCH_NAMESPACE".
Proof. unfold getWatchNamespace. by destruct (WatchAllNamespaces _). Qed.

(** Settles a variable that is no secret by its name, and a secret by its
    reference. *)
Ltac secret_or_not Hnames :=
  intros Hsecret;
  first
    [ by (split; [|eexists _, _])
    | exfalso;
      rewrite ?buildEnvVar_name, ?setIronicExternalIp_name, ?getWatchNamespace_name in Hsecret;
      first
        [ by (revert Hsecret; compute_done)
        | rewrite Forall_forall in Hnames; eapply Hnames; [|exact Hsecret];
          unfold packageVariables; rewrite !elem_of_cons; auto 12 ] ].

(** X29: passwords are never rendered as literals: provided none of the
    variable names declared outside this file is MARIADB_PASSWORD,
    HTTP_BASIC_HTPASSWD or IRONIC_AGENT_PULL_SECRET, every variable of these
    names in a rendered container has no literal value and refers to a key
    of a secret. *)
Theorem rendered_secrets_by_reference (info : ProvisioningInfo) :
  Forall (λ name, name ∉ secretVariables) packageVariables →
  Forall
    (λ c, Forall (λ ev, EnvVar_Name ev ∈ secretVariables → fromSecret ev) (Container_Env c))
    (renderedContainers info).
Proof.
  intros Hnames. apply renderedContainers_ind.
  - intros c Hc. simpl. rewrite envWithProxy_app. apply Forall_app. split; [done|].
    destruct (Info_Proxy info) as [p|]; simpl; [|constructor].
    destruct_gates; simpl; repeat first [apply Forall_nil_2 | apply Forall_cons_2];
      secret_or_not Hnames.
  - intros c Hc. each_constructor c Hc; simpl; unfold envWithMasterMacAddresses; simpl;
      repeat first [apply Forall_nil_2 | apply Forall_cons_2]; secret_or_not Hnames.
  - intros c Hc. each_constructor c Hc; simpl; unfold envWithMasterMacAddresses; simpl;
      repeat first [apply Forall_nil_2 | apply Forall_cons_2]; secret_or_not Hnames.
Qed.

End Secrets.

(** The theorem of X29 at work on the example package. *)
Lemma rendered_secrets_by_reference_witness :
  Forall
    (λ c, Forall (λ ev, EnvVar_Name ev ∈ secretVariables → fromSecret ev) (Container_Env c))
    (renderedContainers (pkg := examplePackage ["https://mirror/live.iso"] false)
       (exampleInfo "172.22.0.3" ProvisioningNetworkManaged "https://mirror/live.iso" ""
          (Some exampleProxy))).
Proof.
  apply (rendered_secrets_by_reference
           (pkg := examplePackage ["https://mirror/live.iso"] false)).
  compute_done.
Defined.

(** ** Reconciliation, further *)

(** Takes every answer of the API server and every test of the reconcile
    both ways. *)
Ltac reconcile_cases :=
  repeat (simpl;
          match goal with
          | |- context [ApplyDeployment ?d ?g ?w] =>
              destruct (ApplyDeployment d g w) as [[[? ?] [?|]] ?]
          | |- context [Deployments_Get ?n ?m ?w] =>
              destruct (Deployments_Get n m w) as [[[?|] [?|]] ?]
          | |- context [Deployments_Delete ?n ?m ?w] =>
              destruct (Deployments_Delete n m w) as [[?|] ?]
          | |- context [bool_decide ?P] => destruct (bool_decide P)
          | |- context [DeepEqual ?a ?b] => destruct (DeepEqual a b)
          | |- context [IsNotFound ?e] => destruct (IsNotFound e)
          | |- context [if ?u then _ else _] => is_var u; destruct u
          end).

Section ReconcilerFurther.
Context {pkg : PackageDecls} {World : Type} {cluster : Cluster World}.

(** X15: [DeleteMetal3Deployment] makes one delete call for the deployment
    metal3 of the namespace of [info]; an answer of not-found, wrapped or not,
    counts as success, and any other error is returned as it is. *)
Theorem DeleteMetal3Deployment_ignores_not_found (info : ProvisioningInfo) (st : State World)
    err w :
  Deployments_Delete (Namespace info) baremetalDeploymentName (world st) = (err, w) →
  (DeleteMetal3Deployment info st).2
  = mkState w (deploymentRolloutStartTime st) (Generations st)
      (calls st ++ [CallDelete (Namespace info) "metal3"])
  ∧ ((DeleteMetal3Deployment info st).1 = None
     ↔ err = None ∨ ∃ e, err = Some e ∧ IsNotFound e = true)
  ∧ ∀ e, (DeleteMetal3Deployment info st).1 = Some e → err = Some e.
Proof.
  intros Hdelete. unfold DeleteMetal3Deployment, callDelete. rewrite Hdelete. simpl.
  split; [reflexivity|].
  destruct err as [e|]; simpl; [|split; [by split; auto|done]].
  destruct (IsNotFound e) eqn:Hnotfound; split.
  - split; [intros _; right; eauto|done].
  - done.
  - split; [done|]. intros [|(e' & [= <-] & ?)]; congruence.
  - by intros ? [= <-].
Qed.

Lemma EnsureMetal3Deployment_rolloutStart info (st : State World) refs :
  SetControllerReference (Deployment_ObjectMeta (newMetal3Deployment info)) = inr refs →
  deploymentRolloutStartTime (EnsureMetal3Deployment info st).2 = time_Now (world st).
Proof.
  intros Href. unfold EnsureMetal3Deployment. rewrite Href.
  unfold callApply, getMetal3DeploymentSelector, callGet, DeleteMetal3Deployment, callDelete,
    EnsureMetal3Deployment_finish. simpl.
  reconcile_cases; reflexivity.
Qed.

(** X16: a reconcile whose [ApplyDeployment] succeeds makes no other call; it
    returns what the apply says of the change and no error, the rollout start
    is the instant of the reconcile, and the generations are updated exactly
    when the deployment was changed. *)
Theorem EnsureMetal3Deployment_apply_success (info : ProvisioningInfo) (st : State World)
    refs deployment updated w :
  SetControllerReference (Deployment_ObjectMeta (newMetal3Deployment info)) = inr refs →
  ApplyDeployment (setOwnerReferences refs (newMetal3Deployment info))
    (ExpectedDeploymentGeneration (newMetal3Deployment info) (Generations st)) (world st)
  = ((deployment, updated, None), w) →
  EnsureMetal3Deployment info st
  = ((updated, None),
     mkState w (time_Now (world st))
       (if updated then SetDeploymentGeneration (Generations st) deployment
        else Generations st)
       (calls st
          ++ [CallApplyDeployment (setOwnerReferences refs (newMetal3Deployment info))
                (ExpectedDeploymentGeneration (newMetal3Deployment info) (Generations st))])).
Proof.
  intros Href Happly. unfold EnsureMetal3Deployment. rewrite Href.
  unfold callApply. simpl. rewrite Happly. unfold EnsureMetal3Deployment_finish.
  by destruct updated.
Qed.

(** X17: when the owner reference cannot be set, the reconcile stops there:
    no call reaches the API server, the rollout start and the generations
    stay as they were, and the error comes back wrapped, with no change
    reported. *)
Theorem EnsureMetal3Deployment_owner_failure (info : ProvisioningInfo) (st : State World) err :
  SetControllerReference (Deployment_ObjectMeta (newMetal3Deployment info)) = inl err →
  EnsureMetal3Deployment info st
  = ((false, Some (Errorf "unable to set controllerReference on deployment: %w" err)), st).
Proof. intros Href. unfold EnsureMetal3Deployment. by rewrite Href. Qed.

(** X18: every reconcile that gets past the owner reference sets the rollout
    start to its own instant, whatever becomes of the apply, and calls the
    API server in this order: the apply, then at most one get, then at most
    one delete. *)
Theorem EnsureMetal3Deployment_calls (info : ProvisioningInfo) (st : State World) refs :
  SetControllerReference (Deployment_ObjectMeta (newMetal3Deployment info)) = inr refs →
  deploymentRolloutStartTime (EnsureMetal3Deployment info st).2 = time_Now (world st)
  ∧ ∃ others,
      calls (EnsureMetal3Deployment info st).2
      = calls st
          ++ CallApplyDeployment (setOwnerReferences refs (newMetal3Deployment info))
               (ExpectedDeploymentGeneration (newMetal3Deployment info) (Generations st))
             :: others
      ∧ others `prefix_of` [ CallGet (Namespace info) "metal3";
                             CallDelete (Namespace info) "metal3" ].
Proof.
  intros Href. split; [by apply EnsureMetal3Deployment_rolloutStart with refs|].
  unfold EnsureMetal3Deployment. rewrite Href.
  unfold callApply, getMetal3DeploymentSelector, callGet, DeleteMetal3Deployment, callDelete,
    EnsureMetal3Deployment_finish. simpl.
  reconcile_cases;
    first [ exists []; split; [reflexivity|apply prefix_nil]
          | eexists [_]; split; [by rewrite <- app_assoc|by eexists [_]]
          | eexists [_; _]; split; [by rewrite <- !app_assoc|done] ].
Qed.

(** X19: a deployment whose selector is the one this code renders, for
    whatever configuration, is never deleted: when the apply fails and the get
    returns such a deployment, the reconcile stops after the get and returns
    the apply error. *)
Theorem EnsureMetal3Deployment_keeps_own_rendering (info info' : ProvisioningInfo)
    (st : State World) refs deployment updated applyErr w1 existing w2 :
  SetControllerReference (Deployment_ObjectMeta (newMetal3Deployment info)) = inr refs →
  ApplyDeployment (setOwnerReferences refs (newMetal3Deployment info))
    (ExpectedDeploymentGeneration (newMetal3Deployment info) (Generations st)) (world st)
  = ((deployment, updated, Some applyErr), w1) →
  Deployments_Get (Namespace info) baremetalDeploymentName w1 = ((Some existing, None), w2) →
  Selector (Deployment_Spec existing) = Selector (Deployment_Spec (newMetal3Deployment info')) →
  EnsureMetal3Deployment info st
  = ((updated, Some (Errorf "unable to apply Metal3 deployment: %w" applyErr)),
     mkState w2 (time_Now (world st)) (Generations st)
       (calls st
          ++ [ CallApplyDeployment (setOwnerReferences refs (newMetal3Deployment info))
                 (ExpectedDeploymentGeneration (newMetal3Deployment info) (Generations st));
               CallGet (Namespace info) "metal3" ])).
Proof.
  intros Href Happly Hget Hselector. unfold EnsureMetal3Deployment. rewrite Href.
  unfold callApply, getMetal3DeploymentSelector, callGet. simpl.
  rewrite Happly. simpl. rewrite Hget. simpl. rewrite Hselector.
  unfold DeepEqual. repeat case_bool_decide; simpl; try by rewrite <- app_assoc.
  all: exfalso; match goal with H : ¬ (_ = _) |- _ => apply H; reflexivity end.
Qed.

(** X20: the deployment rendered selects its own pods, by labels alone: the
    match labels of its selector are the labels of its pod template and of
    the deployment itself, and they do not depend on [info]; it is the
    deployment metal3 of the namespace of [info], with one replica, replaced
    by recreation. *)
Theorem newMetal3Deployment_selects_own_pods (info info' : ProvisioningInfo) :
  Selector (Deployment_Spec (newMetal3Deployment info))
  = Some (mkLabelSelector
            (Template_Labels (Template (Deployment_Spec (newMetal3Deployment info)))) [])
  ∧ Meta_Labels (Deployment_ObjectMeta (newMetal3Deployment info))
    = Template_Labels (Template (Deployment_Spec (newMetal3Deployment info)))
  ∧ Selector (Deployment_Spec (newMetal3Deployment info))
    = Selector (Deployment_Spec (newMetal3Deployment info'))
  ∧ Meta_Name (Deployment_ObjectMeta (newMetal3Deployment info)) = "metal3"
  ∧ Meta_Namespace (Deployment_ObjectMeta (newMetal3Deployment info)) = Namespace info
  ∧ Replicas (Deployment_Spec (newMetal3Deployment info)) = Some 1
  ∧ Strategy_Type (Deployment_Spec (newMetal3Deployment info)) = "Recreate".
Proof. repeat split. Qed.

Lemma firstTrueCondition_or_none (conditions : list DeploymentCondition) :
  (∃ cond, firstTrueCondition conditions cond)
  ∨ Forall (λ c, Condition_Status c ≠ ConditionTrue) conditions.
Proof.
  induction conditions as [|c rest IH].
  - right. constructor.
  - destruct (decide (Condition_Status c = ConditionTrue)) as [Htrue|Hfalse].
    + left. exists c, [], rest. by repeat split.
    + destruct IH as [(cond & before & after & -> & Hbefore & Htrue)|Hnone].
      * left. exists cond, (c :: before), after. repeat split; [|done]. by constructor.
      * right. by constructor.
Qed.

(** X21: [getDeploymentCondition] gives the type of the first condition whose
    status is True, and Progressing when no condition has that status; it
    gives nothing else. *)
Theorem getDeploymentCondition_characterised (deployment : Deployment)
    (state : DeploymentConditionType) :
  getDeploymentCondition deployment = state
  ↔ (∃ cond, firstTrueCondition (Conditions (Deployment_Status deployment)) cond
             ∧ Condition_Type cond = state)
    ∨ (Forall (λ c, Condition_Status c ≠ ConditionTrue)
         (Conditions (Deployment_Status deployment))
       ∧ state = DeploymentProgressing).
Proof.
  unfold getDeploymentCondition. split.
  - intros <-.
    destruct (firstTrueCondition_or_none (Conditions (Deployment_Status deployment)))
      as [[cond Hfirst]|Hnone].
    + left. exists cond. split; [done|]. symmetry. by apply getDeploymentCondition_first_true.
    + right. split; [done|]. by apply getDeploymentCondition_none_true.
  - intros [(cond & Hfirst & <-)|[Hnone ->]].
    + by apply getDeploymentCondition_first_true.
    + by apply getDeploymentCondition_none_true.
Qed.

(** X22: a status query makes one call, the get of the deployment metal3, and
    changes nothing else: neither the rollout start nor the generations. *)
Theorem GetDeploymentState_frame (targetNamespace : string) (st : State World) :
  (GetDeploymentState targetNamespace st).2
  = mkState (Deployments_Get targetNamespace baremetalDeploymentName (world st)).2
      (deploymentRolloutStartTime st) (Generations st)
      (calls st ++ [CallGet targetNamespace "metal3"]).
Proof.
  unfold GetDeploymentState, callGet.
  destruct (Deployments_Get _ _ _) as [[[existing|] [err|]] w]; simpl; try reflexivity.
  by destruct (_ && _).
Qed.

(** X23: the timeout overrides the state Progressing only: when the first
    true condition of the fetched deployment is of another type, that type is
    reported however long ago the rollout started. *)
Theorem GetDeploymentState_timeout_spares_other_states (targetNamespace : string)
    (st : State World) existing w cond :
  Deployments_Get targetNamespace baremetalDeploymentName (world st)
  = ((Some existing, None), w) →
  firstTrueCondition (Conditions (Deployment_Status existing)) cond →
  Condition_Type cond ≠ DeploymentProgressing →
  (GetDeploymentState targetNamespace st).1 = (Condition_Type cond, None).
Proof.
  intros Hget Hfirst Hother. unfold GetDeploymentState, callGet. rewrite Hget. simpl.
  unfold getDeploymentCondition. rewrite (getDeploymentCondition_first_true _ _ Hfirst).
  by rewrite (bool_decide_false (Condition_Type cond = DeploymentProgressing)).
Qed.

(** X24: a fetched deployment none of whose conditions is true, one without
    conditions for instance, is reported Progressing until 5 minutes have
    passed since the rollout start, and ReplicaFailure from then on. *)
Theorem GetDeploymentState_no_true_condition (targetNamespace : string) (st : State World)
    existing w :
  Deployments_Get targetNamespace baremetalDeploymentName (world st)
  = ((Some existing, None), w) →
  Forall (λ c, Condition_Status c ≠ ConditionTrue) (Conditions (Deployment_Status existing)) →
  (GetDeploymentState targetNamespace st).1
  = (if bool_decide (5 * time_Minute ≤ time_Since w (deploymentRolloutStartTime st))
     then DeploymentReplicaFailure else DeploymentProgressing, None).
Proof.
  intros Hget Hnone. unfold GetDeploymentState, callGet. rewrite Hget. simpl.
  unfold getDeploymentCondition. rewrite (getDeploymentCondition_none_true _ Hnone).
  rewrite (bool_decide_true (DeploymentProgressing = DeploymentProgressing)) by done.
  simpl. fold deploymentRolloutTimeout.
  by destruct (bool_decide (deploymentRolloutTimeout ≤ _)).
Qed.

(** X25: the timeout runs from the last reconcile that got past the owner
    reference: when a status query follows such a reconcile and finds the
    deployment Progressing, it reports ReplicaFailure exactly when the clock
    of the query is at least 5 minutes past the clock of that reconcile. *)
Theorem GetDeploymentState_after_reconcile (info : ProvisioningInfo) (st : State World)
    (targetNamespace : string) refs existing w :
  SetControllerReference (Deployment_ObjectMeta (newMetal3Deployment info)) = inr refs →
  Deployments_Get targetNamespace baremetalDeploymentName
    (world (EnsureMetal3Deployment info st).2)
  = ((Some existing, None), w) →
  getDeploymentCondition existing = DeploymentProgressing →
  (GetDeploymentState targetNamespace (EnsureMetal3Deployment info st).2).1
  = (if bool_decide (5 * time_Minute ≤ time_Sub (time_Now w) (time_Now (world st)))
     then DeploymentReplicaFailure else DeploymentProgressing, None).
Proof.
  intros Href Hget Hprogressing. unfold GetDeploymentState, callGet. rewrite Hget. simpl.
  rewrite Hprogressing, (EnsureMetal3Deployment_rolloutStart _ _ _ Href).
  rewrite (bool_decide_true (DeploymentProgressing = DeploymentProgressing)) by done.
  simpl. fold deploymentRolloutTimeout. unfold time_Since.
  by destruct (bool_decide (deploymentRolloutTimeout ≤ _)).
Qed.

End ReconcilerFurther.

(** ** The vSphere platform topology builder *)

Lemma WithNetworks_eq (b : VSpherePlatformTopologyApplyConfiguration) (values : list string) :
  WithNetworks b values
  = mkVSpherePlatformTopology (Datacenter b) (ComputeCluster b) (Networks b ++ values)
      (Datastore b) (ResourcePool b) (Folder b).
Proof.
  revert b. induction values as [|value rest IH]; intros b; simpl.
  - rewrite app_nil_r. by destruct b.
  - rewrite IH. simpl. by rewrite <- app_assoc.
Qed.

(** X26: [WithNetworks] adds to the networks, and to nothing else: the values
    of every call follow, in their order, the networks that were there; two
    calls in a row are one call with the values of both, and a call without
    values changes nothing. *)
Theorem WithNetworks_accumulates (b : VSpherePlatformTopologyApplyConfiguration)
    (values more : list string) :
  Networks (WithNetworks b values) = Networks b ++ values
  ∧ WithNetworks (WithNetworks b values) more = WithNetworks b (values ++ more)
  ∧ WithNetworks b [] = b
  ∧ Datacenter (WithNetworks b values) = Datacenter b
  ∧ ComputeCluster (WithNetworks b values) = ComputeCluster b
  ∧ Datastore (WithNetworks b values) = Datastore b
  ∧ ResourcePool (WithNetworks b values) = ResourcePool b
  ∧ Folder (WithNetworks b values) = Folder b.
Proof.
  rewrite !WithNetworks_eq. destruct b. simpl. rewrite app_assoc, app_nil_r. by repeat split.
Qed.

(** X27: each of the five setters of a single field sets that field to the
    value of the last call, whatever was there, and leaves the five other
    fields as they were. *)
Theorem single_field_setters (b : VSpherePlatformTopologyApplyConfiguration)
    (first last : string) :
  WithDatacenter (WithDatacenter b first) last
  = mkVSpherePlatformTopology (Some last) (ComputeCluster b) (Networks b) (Datastore b)
      (ResourcePool b) (Folder b)
  ∧ WithComputeCluster (WithComputeCluster b first) last
    = mkVSpherePlatformTopology (Datacenter b) (Some last) (Networks b) (Datastore b)
        (ResourcePool b) (Folder b)
  ∧ WithDatastore (WithDatastore b first) last
    = mkVSpherePlatformTopology (Datacenter b) (ComputeCluster b) (Networks b) (Some last)
        (ResourcePool b) (Folder b)
  ∧ WithResourcePool (WithResourcePool b first) last
    = mkVSpherePlatformTopology (Datacenter b) (ComputeCluster b) (Networks b) (Datastore b)
        (Some last) (Folder b)
  ∧ WithFolder (WithFolder b first) last
    = mkVSpherePlatformTopology (Datacenter b) (ComputeCluster b) (Networks b) (Datastore b)
        (ResourcePool b) (Some last).
Proof. by repeat split. Qed.

(** X28: calls that set different fields can be made in any order: each
    single-field setter commutes with each other one and with
    [WithNetworks]. *)
Theorem setters_commute (b : VSpherePlatformTopologyApplyConfiguration)
    (x y : string) (values : list string) :
  WithComputeCluster (WithDatacenter b x) y = WithDatacenter (WithComputeCluster b y) x
  ∧ WithDatastore (WithDatacenter b x) y = WithDatacenter (WithDatastore b y) x
  ∧ WithResourcePool (WithDatacenter b x) y = WithDatacenter (WithResourcePool b y) x
  ∧ WithFolder (WithDatacenter b x) y = WithDatacenter (WithFolder b y) x
  ∧ WithDatastore (WithComputeCluster b x) y = WithComputeCluster (WithDatastore b y) x
  ∧ WithResourcePool (WithComputeCluster b x) y = WithComputeCluster (WithResourcePool b y) x
  ∧ WithFolder (WithComputeCluster b x) y = WithComputeCluster (WithFolder b y) x
  ∧ WithResourcePool (WithDatastore b x) y = WithDatastore (WithResourcePool b y) x
  ∧ WithFolder (WithDatastore b x) y = WithDatastore (WithFolder b y) x
  ∧ WithFolder (WithResourcePool b x) y = WithResourcePool (WithFolder b y) x
  ∧ WithNetworks (WithDatacenter b x) values = WithDatacenter (WithNetworks b values) x
  ∧ WithNetworks (WithComputeCluster b x) values
    = WithComputeCluster (WithNetworks b values) x
  ∧ WithNetworks (WithDatastore b x) values = WithDatastore (WithNetworks b values) x
  ∧ WithNetworks (WithResourcePool b x) values = WithResourcePool (WithNetworks b values) x
  ∧ WithNetworks (WithFolder b x) values = WithFolder (WithNetworks b values) x.
Proof. rewrite !WithNetworks_eq. by repeat split. Qed.

(** ** The further theorems at work *)

(** The theorem of X2 at work on the example package, whose image-cache mount
    and volume are both called metal3-images. *)
Lemma rendered_mounts_name_declared_volumes_witness :
  Forall
    (λ c, Forall
            (λ m, VolumeMount_Name m
                  ∈ Volume_Name <$> metal3Volumes (pkg := examplePackage [] false))
            (Container_VolumeMounts c))
    (renderedContainers (pkg := examplePackage [] false)
       (exampleInfo "172.22.0.3" ProvisioningNetworkManaged "" "" (Some exampleProxy))).
Proof.
  apply (rendered_mounts_name_declared_volumes (pkg := examplePackage [] false)).
  reflexivity.
Defined.

(** The theorem of X15 at work: nothing is stored, the delete answers
    not-found, and [DeleteMetal3Deployment] returns no error. *)
Lemma DeleteMetal3Deployment_ignores_not_found_witness :
  (DeleteMetal3Deployment (cluster := scriptedCluster)
     (exampleInfo "" ProvisioningNetworkManaged "" "" None) (freshCluster 1000 0)).1
  = None.
Proof.
  edestruct (DeleteMetal3Deployment_ignores_not_found (cluster := scriptedCluster)
               (exampleInfo "" ProvisioningNetworkManaged "" "" None) (freshCluster 1000 0))
    as (_ & Hnone & _); [reflexivity|].
  apply Hnone. right. exists notFound. split; reflexivity.
Defined.

(** The theorem of X16 at work: the first reconcile of a cluster that stores
    no deployment yet. *)
Lemma EnsureMetal3Deployment_apply_success_witness :
  let pkg := examplePackage [] false in
  let info := exampleInfo "" ProvisioningNetworkManaged "" "" None in
  let run := EnsureMetal3Deployment (cluster := scriptedCluster) info (freshCluster 1000 0) in
  run.1 = (true, None)
  ∧ deploymentRolloutStartTime run.2 = 1000
  ∧ length (calls run.2) = 1%nat.
Proof.
  intros pkg info run. subst run.
  erewrite (EnsureMetal3Deployment_apply_success (cluster := scriptedCluster) info
              (freshCluster 1000 0));
    [|reflexivity|reflexivity].
  by repeat split.
Defined.

(** The theorem of X17 at work on the cluster whose owner cannot be set. *)
Lemma EnsureMetal3Deployment_owner_failure_witness :
  let pkg := examplePackage [] false in
  let info := exampleInfo "" ProvisioningNetworkManaged "" "" None in
  EnsureMetal3Deployment (cluster := ownerlessCluster) info (freshCluster 1000 0)
  = ((false,
      Some (Errorf "unable to set controllerReference on deployment: %w" ownerRefused)),
     freshCluster 1000 0).
Proof.
  intros pkg info.
  apply (EnsureMetal3Deployment_owner_failure (cluster := ownerlessCluster)).
  reflexivity.
Defined.

(** The theorem of X18 at work: the refused apply over the deployment of an
    older release makes the three calls. *)
Lemma EnsureMetal3Deployment_calls_witness :
  let pkg := examplePackage [] false in
  let info := exampleInfo "" ProvisioningNetworkManaged "" "" None in
  let run := EnsureMetal3Deployment (cluster := scriptedCluster) info (refusedApply None None) in
  deploymentRolloutStartTime run.2 = 1000
  ∧ ∃ apply others,
      calls run.2 = apply :: others
      ∧ others `prefix_of` [ CallGet "openshift-machine-api" "metal3";
                             CallDelete "openshift-machine-api" "metal3" ].
Proof.
  intros pkg info run.
  edestruct (EnsureMetal3Deployment_calls (cluster := scriptedCluster) info
               (refusedApply None None)) as (Hstart & others & Hcalls & Hprefix);
    [reflexivity|].
  split; [exact Hstart|]. eexists _, others. split; [exact Hcalls|exact Hprefix].
Defined.

(** The theorem of X19 at work: the stored deployment was rendered for
    another configuration, and the refused apply leaves it in place. *)
Lemma EnsureMetal3Deployment_keeps_own_rendering_witness :
  let pkg := examplePackage [] false in
  let info := exampleInfo "" ProvisioningNetworkManaged "" "" None in
  let info' := exampleInfo "172.22.0.3" ProvisioningNetworkDisabled "" "" (Some exampleProxy) in
  let run := EnsureMetal3Deployment (cluster := scriptedCluster) info
               (refusedApplyOver (newMetal3Deployment info')) in
  run.1 = (false, Some (Errorf "unable to apply Metal3 deployment: %w" immutableSelector))
  ∧ scripted_stored (world run.2) = Some (newMetal3Deployment info')
  ∧ deleteCalls (calls run.2) = 0%nat.
Proof.
  intros pkg info info' run. subst run.
  erewrite (EnsureMetal3Deployment_keeps_own_rendering (cluster := scriptedCluster)
              info info' (refusedApplyOver (newMetal3Deployment info')));
    [|reflexivity|reflexivity|reflexivity|reflexivity].
  by repeat split.
Defined.

Lemma availableConditions_first_true :
  firstTrueCondition availableConditions
    (mkDeploymentCondition DeploymentAvailable ConditionTrue).
Proof.
  exists [mkDeploymentCondition DeploymentProgressing ConditionFalse],
    [mkDeploymentCondition DeploymentProgressing ConditionTrue].
  split; [reflexivity|]. split; [|reflexivity].
  apply Forall_cons_2; [discriminate|apply Forall_nil_2].
Defined.

(** The theorem of X23 at work: a day after the rollout start the deployment
    is still reported Available. *)
Lemma GetDeploymentState_timeout_spares_other_states_witness :
  (GetDeploymentState (cluster := scriptedCluster) "openshift-machine-api"
     (statusQuery (24 * 60 * time_Minute) availableConditions None)).1
  = (DeploymentAvailable, None).
Proof.
  eapply (GetDeploymentState_timeout_spares_other_states (cluster := scriptedCluster)
            "openshift-machine-api"
            (statusQuery (24 * 60 * time_Minute) availableConditions None)
            _ _ (mkDeploymentCondition DeploymentAvailable ConditionTrue));
    [reflexivity|exact availableConditions_first_true|discriminate].
Defined.

(** The theorem of X24 at work: a deployment without conditions, one minute
    and six minutes after the rollout start. *)
Lemma GetDeploymentState_no_true_condition_witness :
  (GetDeploymentState (cluster := scriptedCluster) "openshift-machine-api"
     (statusQuery time_Minute [] None)).1
  = (DeploymentProgressing, None)
  ∧ (GetDeploymentState (cluster := scriptedCluster) "openshift-machine-api"
       (statusQuery (6 * time_Minute) [] None)).1
    = (DeploymentReplicaFailure, None).
Proof.
  split.
  - erewrite (GetDeploymentState_no_true_condition (cluster := scriptedCluster)
                "openshift-machine-api" (statusQuery time_Minute [] None));
      [|reflexivity|constructor].
    reflexivity.
  - erewrite (GetDeploymentState_no_true_condition (cluster := scriptedCluster)
                "openshift-machine-api" (statusQuery (6 * time_Minute) [] None));
      [|reflexivity|constructor].
    reflexivity.
Defined.

(** The theorem of X25 at work: the rollout start lies an hour back, the
    reconcile moves it to its own instant, and the query that follows at once
    reports Progressing. *)
Lemma GetDeploymentState_after_reconcile_witness :
  let pkg := examplePackage [] false in
  let info := exampleInfo "" ProvisioningNetworkManaged "" "" None in
  (GetDeploymentState (cluster := scriptedCluster) "openshift-machine-api"
     (EnsureMetal3Deployment (cluster := scriptedCluster) info
        (freshCluster (60 * time_Minute) 0)).2).1
  = (DeploymentProgressing, None).
Proof.
  intros pkg info.
  erewrite (GetDeploymentState_after_reconcile (cluster := scriptedCluster) info
              (freshCluster (60 * time_Minute) 0) "openshift-machine-api");
    [|reflexivity|reflexivity|reflexivity].
  reflexivity.
Defined.
